(** * OpenAPI spec discovery agent: a shallow embedding

    The development follows [agent/agent_discovery.py] (the fetcher, the
    analysis engine and the URL verifier of [OpenAPIDiscoveryAgent]) and
    [agent/agent_api.py] (the Flask front door).

    Conventions.
    - A Python [str] is a [string]; its characters are the code points
      0..255 (Basic Latin and Latin-1), so one [ascii] is one character.
    - Python objects that come out of [json.loads] are [value]s.
    - A Python exception is an [exn]: its class name and [str(e)].
    - The network, the reasoning service and [json.loads] are libraries the
      repository calls; they are the fields of an [env].  Every network
      or service call is recorded in a trace of [event]s.
    - [print] writes one line to standard output and can raise (a
      character the stream cannot encode, a closed stream); what it does
      with each line is a field of a [runtime], beside [str()] on the
      objects of [json.loads].
    - Arguments are not checked against their annotations at run time, so
      the functions of the agent take [value]s.  Module [Typed] gives them
      at their declared types on a standard output that accepts every
      line. *)

From Stdlib Require Import String Ascii List Bool NArith Arith Lia.
From Stdlib Require Import DecimalString.
Import ListNotations.
Open Scope string_scope.
Set Warnings "-register-all".

(* ===================================================================== *)
(** ** Python strings *)
(* ===================================================================== *)

Module PyStr.

(** The double quote and the line feed ([chr(10)]). *)
Definition dq : string := String (ascii_of_nat 34) EmptyString.
Definition nl : string := String (ascii_of_nat 10) EmptyString.

(** [q s] is [s] between double quotes. *)
Definition q (s : string) : string := dq ++ s ++ dq.

(** [s[n:]] *)
Fixpoint drop (n : nat) (s : string) : string :=
  match n, s with
  | O, _ => s
  | S _, EmptyString => EmptyString
  | S n', String _ s' => drop n' s'
  end.

(** [s[:n]], with the bound read in binary so that [s[:100000]] computes. *)
Fixpoint take (n : N) (s : string) : string :=
  match s with
  | EmptyString => EmptyString
  | String c s' => if (n =? 0)%N then EmptyString else String c (take (N.pred n) s')
  end.

(** [len(s)] *)
Fixpoint len (s : string) : N :=
  match s with
  | EmptyString => 0%N
  | String _ s' => N.succ (len s')
  end.

(** [s.startswith(p)] *)
Fixpoint startswith (p s : string) : bool :=
  match p, s with
  | EmptyString, _ => true
  | String _ _, EmptyString => false
  | String a p', String b s' => Ascii.eqb a b && startswith p' s'
  end.

(** [cut sep s] splits [s] around the leftmost occurrence of [sep]:
    [s.partition(sep)] when [sep] occurs, [None] when it does not. *)
Fixpoint cut (sep s : string) : option (string * string) :=
  if startswith sep s then Some (EmptyString, drop (String.length sep) s)
  else match s with
       | EmptyString => None
       | String c s' =>
           match cut sep s' with
           | Some (b, a) => Some (String c b, a)
           | None => None
           end
       end.

(** [sep in s] *)
Definition contains (sep s : string) : bool :=
  match cut sep s with Some _ => true | None => false end.

(** [s.split(sep)] for a non-empty [sep] (Python raises [ValueError] on an
    empty one; every separator of this program is a non-empty literal).
    Each cut removes at least one character, so [String.length s] rounds are
    enough: see [split_fuel_enough]. *)
Fixpoint split_fuel (fuel : nat) (sep s : string) : list string :=
  match cut sep s with
  | None => [s]
  | Some (b, a) =>
      match fuel with
      | O => [b; a]
      | S fuel' => b :: split_fuel fuel' sep a
      end
  end.

Definition split (sep s : string) : list string := split_fuel (String.length s) sep s.

(** [sep.join(l)] *)
Fixpoint join (sep : string) (l : list string) : string :=
  match l with
  | [] => EmptyString
  | [x] => x
  | x :: l' => x ++ sep ++ join sep l'
  end.

(** [c.isspace()] on the code points below 256. *)
Definition isspace (c : ascii) : bool :=
  let n := N_of_ascii c in
  (((9 <=? n) && (n <=? 13)) || ((28 <=? n) && (n <=? 32))
   || (n =? 133) || (n =? 160))%N.

Fixpoint lstrip (s : string) : string :=
  match s with
  | EmptyString => EmptyString
  | String c s' => if isspace c then lstrip s' else s
  end.

Fixpoint rstrip (s : string) : string :=
  match s with
  | EmptyString => EmptyString
  | String c s' =>
      match rstrip s' with
      | EmptyString => if isspace c then EmptyString else String c EmptyString
      | r => String c r
      end
  end.

(** [s.strip()] *)
Definition strip (s : string) : string := rstrip (lstrip s).

(** [c.lower()] on the code points below 256: A-Z, and the Latin-1 capitals
    U+00C0..U+00DE except the multiplication sign U+00D7. *)
Definition lower_char (c : ascii) : ascii :=
  let n := N_of_ascii c in
  if (((65 <=? n) && (n <=? 90))
      || ((192 <=? n) && (n <=? 222) && negb (n =? 215)))%N
  then ascii_of_N (n + 32) else c.

(** [s.lower()] *)
Fixpoint lower (s : string) : string :=
  match s with
  | EmptyString => EmptyString
  | String c s' => String (lower_char c) (lower s')
  end.

(** [str(n)] for a non-negative integer. *)
Definition str_N (n : N) : string := NilZero.string_of_uint (N.to_uint n).

(** [c] is a cased character, for the code points below 256. *)
Definition is_cased (c : ascii) : bool :=
  let n := N_of_ascii c in
  (((65 <=? n) && (n <=? 90)) || ((97 <=? n) && (n <=? 122))
   || (n =? 170) || (n =? 181) || (n =? 186)
   || ((192 <=? n) && (n <=? 214)) || ((216 <=? n) && (n <=? 246))
   || (248 <=? n))%N.

(** The title case of [c]: the capital of a small letter, [Ss] for the
    sharp s.  The title cases of U+00B5 and U+00FF lie above U+00FF; this
    model leaves these two characters as they are. *)
Definition title_char (c : ascii) : string :=
  let n := N_of_ascii c in
  if (((97 <=? n) && (n <=? 122)) || ((224 <=? n) && (n <=? 246))
      || ((248 <=? n) && (n <=? 254)))%N
  then String (ascii_of_N (n - 32)) EmptyString
  else if (n =? 223)%N then "Ss"
  else String c EmptyString.

Fixpoint title_from (previous_is_cased : bool) (s : string) : string :=
  match s with
  | EmptyString => EmptyString
  | String c s' =>
      (if previous_is_cased then String (lower_char c) EmptyString else title_char c)
      ++ title_from (is_cased c) s'
  end.

(** [s.title()], exact on every string without a word-initial U+00B5 or
    U+00FF. *)
Definition title (s : string) : string := title_from false s.

End PyStr.
Import PyStr.

(* ===================================================================== *)
(** ** Python objects, exceptions *)
(* ===================================================================== *)

(** The objects [json.loads] builds.  A number keeps its lexeme: this
    program only passes numbers through.  A [dict] keeps its items in
    insertion order, one item per key. *)
Inductive value : Type :=
  | VNone
  | VBool (b : bool)
  | VNum (lexeme : string)
  | VStr (s : string)
  | VList (l : list value)
  | VDict (items : list (string * value)).

(** An exception object, an instance of [Exception]: its class and
    [str(e)].  ([KeyboardInterrupt] and the other [BaseException]s that
    [except Exception] lets through are not modelled.) *)
Record exn : Type := Exn { exn_class : string; exn_str : string }.

(** A computation that returns or raises. *)
Definition res (A : Type) : Type := (exn + A)%type.

Definition rbind {A B} (c : res A) (k : A -> res B) : res B :=
  match c with
  | inl e => inl e
  | inr a => k a
  end.

Declare Scope res_scope.
Delimit Scope res_scope with res.
Notation "x <~ c ;; k" := (rbind c (fun x => k))
  (at level 100, c at next level, right associativity) : res_scope.

Module PyObj.

Definition is_float_lexeme (lx : string) : bool :=
  contains "." lx || contains "e" lx || contains "E" lx
  || contains "N" lx || contains "I" lx.

(** [type(v).__name__] *)
Definition type_name (v : value) : string :=
  match v with
  | VNone => "NoneType"
  | VBool _ => "bool"
  | VNum lx => if is_float_lexeme lx then "float" else "int"
  | VStr _ => "str"
  | VList _ => "list"
  | VDict _ => "dict"
  end.

(** Key lookup in the items of a dict. *)
Fixpoint lookup (k : string) (items : list (string * value)) : option value :=
  match items with
  | [] => None
  | (k', v) :: rest => if String.eqb k k' then Some v else lookup k rest
  end.

(** [d[k] = v] on the items of a dict: a present key keeps its place. *)
Fixpoint dict_set (k : string) (v : value) (items : list (string * value))
  : list (string * value) :=
  match items with
  | [] => [(k, v)]
  | (k', v') :: rest =>
      if String.eqb k k' then (k, v) :: rest else (k', v') :: dict_set k v rest
  end.

(** [o.get(k, default)]: only a dict has the method. *)
Definition py_get (o : value) (k : string) (default : value) : res value :=
  match o with
  | VDict items =>
      inr (match lookup k items with Some v => v | None => default end)
  | _ => inl (Exn "AttributeError"
                ("'" ++ type_name o ++ "' object has no attribute 'get'"))
  end.

(** [o[:n]]: strings and lists slice; a dict rejects the slice as a key
    and the other objects are not subscriptable (CPython 3.11 wording). *)
Definition py_slice_to (n : N) (o : value) : res value :=
  match o with
  | VStr s => inr (VStr (take n s))
  | VList l => inr (VList (firstn (N.to_nat n) l))
  | VDict _ => inl (Exn "TypeError" "unhashable type: 'slice'")
  | _ => inl (Exn "TypeError"
                ("'" ++ type_name o ++ "' object is not subscriptable"))
  end.

(** [l[i]] on a Python list. *)
Definition py_index {A} (l : list A) (i : nat) : res A :=
  match nth_error l i with
  | Some a => inr a
  | None => inl (Exn "IndexError" "list index out of range")
  end.

(** [k in o] for a string [k]: key of a dict, element of a list,
    substring of a string; the other objects are not containers. *)
Definition py_in (k : string) (o : value) : res bool :=
  match o with
  | VDict items => inr (match lookup k items with Some _ => true | None => false end)
  | VList l =>
      inr (existsb (fun v => match v with VStr s => String.eqb k s | _ => false end) l)
  | VStr s => inr (contains k s)
  | _ => inl (Exn "TypeError"
                ("argument of type '" ++ type_name o ++ "' is not iterable"))
  end.

(** [o[k]] for a string [k]. *)
Definition py_getitem (o : value) (k : string) : res value :=
  match o with
  | VDict items =>
      match lookup k items with
      | Some v => inr v
      | None => inl (Exn "KeyError" ("'" ++ k ++ "'"))
      end
  | VList _ => inl (Exn "TypeError" "list indices must be integers or slices, not str")
  | VStr _ => inl (Exn "TypeError" "string indices must be integers, not 'str'")
  | _ => inl (Exn "TypeError"
                ("'" ++ type_name o ++ "' object is not subscriptable"))
  end.

Definition digit_val (c : ascii) : option N :=
  let n := N_of_ascii c in
  if ((48 <=? n) && (n <=? 57))%N then Some (n - 48)%N else None.

(** Reads a run of decimal digits after the digits of value [acc]: the
    value of all of them, the length of the run, and what follows. *)
Fixpoint read_digits (s : string) (acc count : N) : N * N * string :=
  match s with
  | EmptyString => (acc, count, s)
  | String c s' =>
      match digit_val c with
      | Some d => read_digits s' (10 * acc + d) (N.succ count)
      | None => (acc, count, s)
      end
  end.

(** The exponent part of a number lexeme: its sign and its digits. *)
Definition read_exponent (s : string) : bool * N :=
  match s with
  | String c r =>
      if (N_of_ascii c =? 101)%N || (N_of_ascii c =? 69)%N then
        match r with
        | String sg r' =>
            if (N_of_ascii sg =? 45)%N then (true, fst (fst (read_digits r' 0 0)))
            else if (N_of_ascii sg =? 43)%N then (false, fst (fst (read_digits r' 0 0)))
            else (false, fst (fst (read_digits r 0 0)))
        | EmptyString => (false, 0%N)
        end
      else (false, 0%N)
  | EmptyString => (false, 0%N)
  end.

(** [x == 0] for the [int] or [float] that [json.loads] makes of the
    lexeme [lx].  The lexeme denotes [m * 10^e]; an [int] is exact, and a
    [float] is the nearest double, ties to even, so that it is zero exactly
    when [m * 10^e <= 2^-1075].  [NaN] and the infinities have no digits
    and are not zero. *)
Definition number_is_zero (lx : string) : bool :=
  let body :=
    match lx with
    | String c r => if (N_of_ascii c =? 45)%N then r else lx
    | EmptyString => lx
    end in
  let '(m1, int_digits, r1) := read_digits body 0 0 in
  if (int_digits =? 0)%N then false
  else
    let '(m, frac_digits, r2) :=
      match r1 with
      | String c r => if (N_of_ascii c =? 46)%N then read_digits r m1 0 else (m1, 0%N, r1)
      | EmptyString => (m1, 0%N, r1)
      end in
    let (negative, e) := read_exponent r2 in
    if (m =? 0)%N then true
    else if negative then (m * 2 ^ 1075 <=? 10 ^ (e + frac_digits))%N
    else if (frac_digits <=? e)%N then false
    else (m * 2 ^ 1075 <=? 10 ^ (frac_digits - e))%N.

(** [bool(o)] *)
Definition truthy (o : value) : bool :=
  match o with
  | VNone => false
  | VBool b => b
  | VNum lx => negb (number_is_zero lx)
  | VStr s => negb (String.eqb s "")
  | VList l => match l with [] => false | _ :: _ => true end
  | VDict items => match items with [] => false | _ :: _ => true end
  end.

(** [a or b] *)
Definition py_or (a b : value) : value := if truthy a then a else b.

(** [iter(o)]: what a [for] clause goes through; a list gives its items,
    a string its characters, a dict its keys. *)
Definition py_iter (o : value) : res (list value) :=
  match o with
  | VList l => inr l
  | VStr s => inr (map (fun c => VStr (String c EmptyString)) (list_ascii_of_string s))
  | VDict items => inr (map (fun kv : string * value => VStr (fst kv)) items)
  | _ => inl (Exn "TypeError" ("'" ++ type_name o ++ "' object is not iterable"))
  end.

(** Insertion of an item into items sorted by key; keys compare by code
    point, as [str] does. *)
Fixpoint insert_item (kv : string * value) (l : list (string * value))
  : list (string * value) :=
  match l with
  | [] => [kv]
  | kv' :: l' =>
      if String.leb (fst kv) (fst kv') then kv :: l else kv' :: insert_item kv l'
  end.

Definition sort_items (l : list (string * value)) : list (string * value) :=
  fold_right insert_item [] l.

(** The object a JSON text written with [sort_keys=True] denotes: every
    dict, at every depth, has its keys in sorted order. *)
Fixpoint sort_keys (o : value) : value :=
  match o with
  | VList l => VList (map sort_keys l)
  | VDict items =>
      VDict (sort_items
               (map (fun kv : string * value => let (k, v) := kv in (k, sort_keys v))
                  items))
  | _ => o
  end.

End PyObj.
Import PyObj.

(* ===================================================================== *)
(** ** The libraries the agent calls, and the trace of its calls *)
(* ===================================================================== *)

(** What the program reads of a [requests.Response]. *)
Record Response : Type := mkResponse {
  status_code : N;
  reason : string;
  url : string;
  text : string
}.

(** The arguments of [client.messages.create]; [messages] pairs a role
    with a content. *)
Record MessagesRequest : Type := mkMessagesRequest {
  model : string;
  max_tokens : N;
  system : string;
  messages : list (string * string)
}.

(** One call that leaves the process. *)
Inductive event : Type :=
  | RequestsGet (u : string) (timeout : N)
  | RequestsHead (u : string) (timeout : N) (allow_redirects : bool)
  | MessagesCreate (req : MessagesRequest).

(** The library boundary.  [messages_create] returns the texts of the
    content blocks of the reply ([message.content[i].text]). *)
Record env : Type := mkEnv {
  requests_get : string -> N -> res Response;
  requests_head : string -> N -> bool -> res Response;
  messages_create : MessagesRequest -> res (list string);
  json_loads : string -> res value
}.

(** A computation that makes calls, then returns or raises. *)
Definition M (A : Type) : Type := (list event * res A)%type.

Definition ret {A} (a : A) : M A := ([], inr a).

Definition lift {A} (r : res A) : M A := ([], r).

Definition bind {A B} (c : M A) (k : A -> M B) : M B :=
  match snd c with
  | inl e => (fst c, inl e)
  | inr a => ((fst c ++ fst (k a))%list, snd (k a))
  end.

(** [try: c  except Exception as e: h e] *)
Definition try_except {A} (c : M A) (h : exn -> M A) : M A :=
  match snd c with
  | inl e => ((fst c ++ fst (h e))%list, snd (h e))
  | inr a => c
  end.

Declare Scope agent_scope.
Delimit Scope agent_scope with agent.
Notation "x <- c ;; k" := (bind c (fun x => k))
  (at level 100, c at next level, right associativity) : agent_scope.

Definition call_get (E : env) (u : string) (timeout : N) : M Response :=
  ([RequestsGet u timeout], requests_get E u timeout).

Definition call_head (E : env) (u : string) (timeout : N) (allow_redirects : bool)
  : M Response :=
  ([RequestsHead u timeout allow_redirects], requests_head E u timeout allow_redirects).

Definition call_messages_create (E : env) (req : MessagesRequest) : M (list string) :=
  ([MessagesCreate req], messages_create E req).

(** [response.raise_for_status()]: [HTTPError] on 4xx and 5xx only. *)
Definition raise_for_status (r : Response) : res unit :=
  if ((400 <=? status_code r) && (status_code r <? 500))%N then
    inl (Exn "HTTPError" (str_N (status_code r) ++ " Client Error: " ++ reason r
                          ++ " for url: " ++ url r))
  else if ((500 <=? status_code r) && (status_code r <? 600))%N then
    inl (Exn "HTTPError" (str_N (status_code r) ++ " Server Error: " ++ reason r
                          ++ " for url: " ++ url r))
  else inr tt.

(* ===================================================================== *)
(** ** Standard output and [str()] *)
(* ===================================================================== *)

(** The lines the agent prints, one constructor for each [print] of
    [agent_discovery.py], with the objects its f-string formats. *)
Inductive printed : Type :=
  | PrintDiscovering (vendor api_name : value)          (* line 64 *)
  | PrintDocumentationURL (documentation_url : value)   (* line 65 *)
  | PrintFetching                                       (* line 84 *)
  | PrintFetchError (e : exn)                           (* line 89 *)
  | PrintAnalyzing                                      (* line 103 *)
  | PrintAnalysisComplete                               (* line 173 *)
  | PrintConfidence (confidence : value)                (* line 174 *)
  | PrintReasoning (preview : value)                    (* line 175 *)
  | PrintAnalysisError (e : exn)                        (* line 188 *)
  | PrintVerifying (url : value)                        (* line 204 *)
  | PrintValidSpec                                      (* line 218 *)
  | PrintNotASpec (status : N)                          (* line 221 *)
  | PrintVerifyError (e : exn)                          (* line 225 *)
  | PrintRuleAbove                                      (* line 236 *)
  | PrintRuleBelow                                      (* line 238 *)
  | PrintExampleTitle                                   (* line 237 *)
  | PrintResultsTitle                                   (* line 251 *)
  | PrintResultField (label : string) (v : value).      (* lines 252-258 *)

(** What the Python process gives the agent besides the libraries of
    [env].  [stdout_print] is what the [print] of a line does, the
    formatting of its f-string included: it returns, or it raises, for
    instance [UnicodeEncodeError] on a string the stream cannot encode (a
    lone surrogate on a UTF-8 stream, any character beyond ASCII on an
    ASCII stream) or [ValueError] on a closed stream.  [py_str] is
    [str(o)] on an object that is not a [str]. *)
Record runtime : Type := mkRuntime {
  stdout_print : printed -> res unit;
  py_str : value -> string
}.

(** [print(line)] *)
Definition print (R : runtime) (line : printed) : M unit := lift (stdout_print R line).

(** [f"{o}"], and the URL [requests] makes of the argument [o]: a [str] is
    taken as it is, another object through [str(o)]. *)
Definition str_of (R : runtime) (o : value) : string :=
  match o with
  | VStr s => s
  | _ => py_str R o
  end.

(** A process whose standard output accepts every line.  [str_of] takes
    a [str] as it is, so the [py_str] of this process is not consulted
    where every argument is a [str]. *)
Definition quiet : runtime := mkRuntime (fun _ => inr tt) (fun _ => "").

(* ===================================================================== *)
(** ** [agent/agent_discovery.py] *)
(* ===================================================================== *)

Module agent_discovery.

(** The dataclass.  Its annotations are not enforced at run time, so a
    field holds whatever object the constructor is given. *)
Record SpecLocation : Type := mkSpecLocation {
  download_url : value;
  version : value;
  format : value;
  versioning_strategy : value;
  github_info : value;
  confidence : value;
  reasoning : value
}.

Definition system_prompt : string :=
  join nl [
    "You are an expert at finding OpenAPI specifications from vendor documentation.";
    "";
    "Your task is to analyze documentation pages and determine:";
    "1. Where the OpenAPI spec file is located";
    "2. How to download it";
    "3. What versioning strategy the vendor uses";
    "4. The format (YAML or JSON)";
    "";
    "Return your findings in this exact JSON format:";
    "{";
    "  " ++ q "download_url" ++ ": " ++ q "direct URL to download the spec" ++ ",";
    "  " ++ q "version" ++ ": " ++ q "version string or null if unknown" ++ ",";
    "  " ++ q "format" ++ ": " ++ q "yaml or json" ++ ",";
    "  " ++ q "versioning_strategy" ++ ": "
         ++ q "release-tag | file-based | in-spec | unknown" ++ ",";
    "  " ++ q "github_info" ++ ": {";
    "    " ++ q "owner" ++ ": " ++ q "github-owner" ++ ",";
    "    " ++ q "repo" ++ ": " ++ q "repo-name" ++ ",";
    "    " ++ q "path" ++ ": " ++ q "path/to/spec.yaml";
    "  } or null,";
    "  " ++ q "confidence" ++ ": " ++ q "high | medium | low" ++ ",";
    "  " ++ q "reasoning" ++ ": " ++ q "explain why you believe this is correct";
    "}";
    "";
    "Common patterns to look for:";
    "- Links to GitHub repositories with OpenAPI specs";
    "- Direct download links to .yaml or .json files";
    "- API reference sections mentioning " ++ q "OpenAPI" ++ ", " ++ q "Swagger"
         ++ ", " ++ q "OAS";
    "- Developer resources or API documentation downloads";
    "- Version numbers in URLs or page content";
    ""
  ].

Definition user_prompt (vendor api_name documentation_url page_content : string)
    (hints : list string) : string :=
  "Find the OpenAPI specification for: " ++ vendor ++ " " ++ api_name ++ nl
  ++ nl
  ++ "Documentation URL: " ++ documentation_url ++ nl
  ++ nl
  ++ "Hints:" ++ nl
  ++ join nl (map (fun hint => "- " ++ hint) hints) ++ nl
  ++ nl
  ++ "Documentation page content (truncated):" ++ nl
  ++ take 50000 page_content ++ nl
  ++ nl
  ++ "Analyze this page and find where I can download the OpenAPI specification." ++ nl
  ++ "Return ONLY valid JSON, no other text.".

(** The arguments [_analyze_with_claude] gives to [client.messages.create]. *)
Definition analysis_request (vendor api_name documentation_url page_content : string)
    (hints : list string) : MessagesRequest :=
  mkMessagesRequest "claude-sonnet-4-20250514" 2000 system_prompt
    [("user", user_prompt vendor api_name documentation_url page_content hints)].

(** [_fetch_documentation]; the [print] of the [except] branch stands
    outside the [try]. *)
Definition _fetch_documentation (R : runtime) (E : env) (url : value) : M string :=
  (try_except
     (_ <- print R PrintFetching ;;
      response <- call_get E (str_of R url) 30 ;;
      _ <- lift (raise_for_status response) ;;
      ret (take 100000 (text response)))
     (fun e => _ <- print R (PrintFetchError e) ;; ret ""))%agent.

(** The code-fence removal of [_analyze_with_claude]. *)
Definition strip_code_fence (response_text : string) : res string :=
  (if contains "```json" response_text then
     a <~ py_index (split "```json" response_text) 1 ;;
     py_index (split "```" a) 0
   else if contains "```" response_text then
     a <~ py_index (split "```" response_text) 1 ;;
     py_index (split "```" a) 0
   else inr response_text)%res.

(** The record of the [except] branch. *)
Definition fallback (e : exn) : SpecLocation :=
  mkSpecLocation (VStr "") VNone (VStr "yaml") (VStr "unknown") VNone (VStr "low")
    (VStr ("Error during analysis: " ++ exn_str e)).

(** What follows [json.loads] inside the [try]: the three progress lines,
    then the record built from the parsed reply. *)
Definition spec_of_result (R : runtime) (result : value) : res SpecLocation :=
  (_ <~ stdout_print R PrintAnalysisComplete ;;
   c <~ py_get result "confidence" (VStr "unknown") ;;
   _ <~ stdout_print R (PrintConfidence c) ;;
   r <~ py_get result "reasoning" (VStr "N/A") ;;
   preview <~ py_slice_to 100 r ;;
   _ <~ stdout_print R (PrintReasoning preview) ;;
   f_download_url <~ py_get result "download_url" (VStr "") ;;
   f_version <~ py_get result "version" VNone ;;
   f_format <~ py_get result "format" (VStr "yaml") ;;
   f_versioning_strategy <~ py_get result "versioning_strategy" (VStr "unknown") ;;
   f_github_info <~ py_get result "github_info" VNone ;;
   f_confidence <~ py_get result "confidence" (VStr "low") ;;
   f_reasoning <~ py_get result "reasoning" (VStr "") ;;
   inr (mkSpecLocation f_download_url f_version f_format f_versioning_strategy
          f_github_info f_confidence f_reasoning))%res.

(** [_analyze_with_claude].  The first [print] and the two prompts stand
    before the [try]: the user prompt goes through [hints] with a [for]
    clause.  The [print] of the [except] branch stands outside the [try]
    too.  [page_content] is what [_fetch_documentation] returned. *)
Definition _analyze_with_claude (R : runtime) (E : env)
    (vendor api_name documentation_url : value) (page_content : string) (hints : value)
  : M SpecLocation :=
  (_ <- print R PrintAnalyzing ;;
   hint_list <- lift (py_iter hints) ;;
   let request :=
     analysis_request (str_of R vendor) (str_of R api_name) (str_of R documentation_url)
       page_content (map (str_of R) hint_list) in
   try_except
     (message <- call_messages_create E request ;;
      response_text <- lift (py_index message 0) ;;
      response_text <- lift (strip_code_fence response_text) ;;
      result <- lift (json_loads E (strip response_text)) ;;
      lift (spec_of_result R result))
     (fun e => _ <- print R (PrintAnalysisError e) ;; ret (fallback e)))%agent.

(** [discover_spec]; [hints] is [None] when the caller gives none. *)
Definition discover_spec (R : runtime) (E : env)
    (vendor api_name documentation_url hints : value) : M SpecLocation :=
  (_ <- print R (PrintDiscovering vendor api_name) ;;
   _ <- print R (PrintDocumentationURL documentation_url) ;;
   page_content <- _fetch_documentation R E documentation_url ;;
   spec_location <- _analyze_with_claude R E vendor api_name documentation_url
                      page_content (py_or hints (VList [])) ;;
   ret spec_location)%agent.

(** The keywords of [verify_spec_url]. *)
Definition keywords : list string :=
  [q "openapi" ++ ":"; "'openapi':"; "openapi:"; "swagger:"].

Definition has_openapi (content : string) : bool :=
  existsb (fun keyword => contains keyword (lower content)) keywords.

(** [verify_spec_url]; every path that does not return [True] falls
    through to the line that prints the status. *)
Definition verify_spec_url (R : runtime) (E : env) (url : value) : M bool :=
  (try_except
     (_ <- print R (PrintVerifying url) ;;
      response <- call_head E (str_of R url) 10 true ;;
      let not_a_spec :=
        (_ <- print R (PrintNotASpec (status_code response)) ;; ret false) in
      if (status_code response =? 200)%N then
        content_response <- call_get E (str_of R url) 30 ;;
        let content := text content_response in
        if has_openapi content then _ <- print R PrintValidSpec ;; ret true
        else not_a_spec
      else not_a_spec)
     (fun e => _ <- print R (PrintVerifyError e) ;; ret false))%agent.

(** [result.confidence in ['high', 'medium']] *)
Definition confident (c : value) : bool :=
  match c with
  | VStr s => String.eqb s "high" || String.eqb s "medium"
  | _ => false
  end.

Definition main_documentation_url : string :=
  "https://developer.salesforce.com/docs/marketing/marketing-cloud/guide/api-documentation.html".

Definition main_hints : list string :=
  ["Look for OpenAPI or Swagger downloads"; "Check API reference section";
   "Look for developer resources"].

(** [main], given what the construction of the agent returned or raised. *)
Definition main (R : runtime) (agent_init : res unit) (E : env) : M unit :=
  (_ <- lift agent_init ;;
   _ <- print R PrintRuleAbove ;;
   _ <- print R PrintExampleTitle ;;
   _ <- print R PrintRuleBelow ;;
   result <- discover_spec R E (VStr "salesforce") (VStr "marketing-cloud")
               (VStr main_documentation_url) (VList (map VStr main_hints)) ;;
   _ <- print R PrintResultsTitle ;;
   _ <- print R (PrintResultField "Download URL" (download_url result)) ;;
   _ <- print R (PrintResultField "Version" (version result)) ;;
   _ <- print R (PrintResultField "Format" (format result)) ;;
   _ <- print R (PrintResultField "Versioning Strategy" (versioning_strategy result)) ;;
   _ <- print R (PrintResultField "GitHub Info" (github_info result)) ;;
   _ <- print R (PrintResultField "Confidence" (confidence result)) ;;
   _ <- print R (PrintResultField "Reasoning" (reasoning result)) ;;
   if truthy (download_url result) && confident (confidence result) then
     _ <- verify_spec_url R E (download_url result) ;; ret tt
   else ret tt)%agent.

End agent_discovery.

(* ===================================================================== *)
(** ** The agent at its declared types *)
(* ===================================================================== *)

(** The methods of the agent on arguments of the types their signatures
    declare ([str] and [List[str]]), in a process whose standard output
    accepts every line: the definitions of [agent_discovery] at those
    arguments and at [quiet]. *)
Module Typed.

Definition _fetch_documentation (E : env) (u : string) : M string :=
  agent_discovery._fetch_documentation quiet E (VStr u).

Definition spec_of_result (result : value) : res agent_discovery.SpecLocation :=
  agent_discovery.spec_of_result quiet result.

Definition _analyze_with_claude (E : env)
    (vendor api_name documentation_url page_content : string) (hints : list string)
  : M agent_discovery.SpecLocation :=
  agent_discovery._analyze_with_claude quiet E (VStr vendor) (VStr api_name)
    (VStr documentation_url) page_content (VList (map VStr hints)).

Definition verify_spec_url (E : env) (u : string) : M bool :=
  agent_discovery.verify_spec_url quiet E (VStr u).

End Typed.

(* ===================================================================== *)
(** ** [agent/agent_api.py]: the [/discover] route *)
(* ===================================================================== *)

Module agent_api.

Definition required : list string := ["vendor"; "api_name"; "documentation_url"].

(** [jsonify(body), status] *)
Definition reply : Type := (value * N)%type.

(** [jsonify(o)]: Flask writes the JSON text with sorted keys; the body
    is the object that text denotes. *)
Definition jsonify (o : value) : value := sort_keys o.

Definition error_reply (msg : string) (status : N) : reply :=
  (jsonify (VDict [("error", VStr msg)]), status).

(** The validation loop: the first [field] with [field not in data]. *)
Fixpoint first_missing (fields : list string) (data : value) : res (option string) :=
  match fields with
  | [] => inr None
  | field :: rest =>
      (present <~ py_in field data ;;
       if negb present then inr (Some field) else first_missing rest data)%res
  end.

(** [discover_spec], given what [request.get_json()] returned or raised.
    The fields go to the agent as the body gave them. *)
Definition discover_spec (R : runtime) (E : env) (get_json : res value) : M reply :=
  (try_except
     (data <- lift get_json ;;
      missing <- lift (first_missing required data) ;;
      match missing with
      | Some field => ret (error_reply ("Missing required field: " ++ field) 400)
      | None =>
          vendor <- lift (py_getitem data "vendor") ;;
          api_name <- lift (py_getitem data "api_name") ;;
          documentation_url <- lift (py_getitem data "documentation_url") ;;
          hints <- lift (py_get data "hints" (VList [])) ;;
          result <- agent_discovery.discover_spec R E vendor api_name
                      documentation_url hints ;;
          ret (jsonify (VDict [
                 ("download_url", agent_discovery.download_url result);
                 ("version", agent_discovery.version result);
                 ("format", agent_discovery.format result);
                 ("versioning_strategy", agent_discovery.versioning_strategy result);
                 ("github_info", agent_discovery.github_info result);
                 ("confidence", agent_discovery.confidence result);
                 ("reasoning", agent_discovery.reasoning result)]), 200%N)
      end)
     (fun e => ret (error_reply (exn_str e) 500)))%agent.

(** [verify_url], given what [request.get_json()] returned or raised. *)
Definition verify_url (R : runtime) (E : env) (get_json : res value) : M reply :=
  (try_except
     (data <- lift get_json ;;
      url_value <- lift (py_get data "url" VNone) ;;
      if negb (truthy url_value) then ret (error_reply "Missing 'url' field" 400)
      else
        is_valid <- agent_discovery.verify_spec_url R E url_value ;;
        ret (jsonify (VDict [
               ("valid", VBool is_valid);
               ("message", VStr (if is_valid then "Valid OpenAPI spec"
                                 else "Not a valid OpenAPI spec"))]), 200%N))
     (fun e => ret (error_reply (exn_str e) 500)))%agent.

End agent_api.

(* ===================================================================== *)
(** ** [agent/practical_examples.py]: the registry entry *)
(* ===================================================================== *)

Module practical_examples.

Import agent_discovery.

(** The [sources] object of [create_registry_entry]. *)
Definition registry_sources (discovery_result : SpecLocation) (doc_url : string)
  : res (list (string * value)) :=
  let sources := [("documentation_url", VStr doc_url)] in
  if truthy (github_info discovery_result) then
    (owner <~ py_getitem (github_info discovery_result) "owner" ;;
     repo <~ py_getitem (github_info discovery_result) "repo" ;;
     spec_path <~ py_getitem (github_info discovery_result) "path" ;;
     inr (dict_set "github"
            (VDict [("owner", owner); ("repo", repo); ("spec_path", spec_path);
                    ("versioning_strategy", versioning_strategy discovery_result)])
            sources))%res
  else inr sources.

(** [create_registry_entry].  [title] is [str.title]; it is a parameter
    because the title case of two characters of this model lies outside
    it (see [PyStr.title]). *)
Definition create_registry_entry (title : string -> string)
    (vendor api_name : string) (discovery_result : SpecLocation) (doc_url : string)
  : res value :=
  let discovery_mode :=
    if truthy (github_info discovery_result) then "hybrid" else "agent_assisted" in
  (sources <~ registry_sources discovery_result doc_url ;;
   inr (VDict [
     ("id", VStr (vendor ++ "-" ++ api_name));
     ("vendor", VStr vendor);
     ("api", VStr api_name);
     ("name", VStr (title vendor ++ " " ++ title api_name ++ " API"));
     ("connector_repo", VStr ("module-ballerinax-" ++ vendor ++ "." ++ api_name));
     ("module_version", VStr "1.0.0-SNAPSHOT");
     ("frequency", VStr "weekly");
     ("discovery_mode", VStr discovery_mode);
     ("sources", VDict sources);
     ("metadata", VDict [
        ("base_url", VStr ("https://api." ++ vendor ++ ".com"));
        ("documentation_url", VStr doc_url);
        ("description", VStr (title vendor ++ " " ++ title api_name ++ " API"));
        ("tags", VList [VStr vendor; VStr api_name])]);
     ("version_tracking", VDict [
        ("last_known_version", py_or (version discovery_result) (VStr "unknown"));
        ("last_checked", VNone);
        ("last_content_hash", VNone)]);
     ("agent_context", VDict [
        ("hints", VList []);
        ("previous_findings", VDict [
           ("download_url", download_url discovery_result);
           ("version", version discovery_result);
           ("format", format discovery_result);
           ("versioning_strategy", versioning_strategy discovery_result);
           ("github_info", github_info discovery_result);
           ("confidence", confidence discovery_result);
           ("reasoning", reasoning discovery_result)])])]))%res.

End practical_examples.

(* ===================================================================== *)
(** ** A reference [json.loads] *)
(* ===================================================================== *)

(** CPython's decoder ([Lib/json/decoder.py] over the scanner of
    [Modules/_json.c], CPython 3.11 messages) on documents of this model.
    A [\uXXXX] escape above U+00FF names a character that a [string] of this
    model cannot hold; the decoder then stops with [OutsideModel].  The
    scanner recurses on fuel, one unit more than the document has
    characters, which is enough ([loads_fuel_enough]).  The general
    theorems below hold for every [json_loads]; this one serves the
    concrete runs. *)
Module PyJson.

Inductive failure : Type :=
  | DecodeError (msg : string) (pos : nat)
  | OutsideModel (pos : nat)
  | OutOfFuel.

Definition scanned (A : Type) : Type := (failure + (A * string * nat))%type.

Definition is_char (n : N) (c : ascii) : bool := (N_of_ascii c =? n)%N.

(** The four characters of [WHITESPACE]. *)
Definition is_ws (c : ascii) : bool :=
  is_char 32 c || is_char 9 c || is_char 10 c || is_char 13 c.

Fixpoint skip_ws (s : string) (pos : nat) : string * nat :=
  match s with
  | EmptyString => (s, pos)
  | String c s' => if is_ws c then skip_ws s' (S pos) else (s, pos)
  end.

Definition is_digit (c : ascii) : bool :=
  let n := N_of_ascii c in ((48 <=? n) && (n <=? 57))%N.

Definition hex_val (c : ascii) : option N :=
  let n := N_of_ascii c in
  if ((48 <=? n) && (n <=? 57))%N then Some (n - 48)%N
  else if ((65 <=? n) && (n <=? 70))%N then Some (n - 55)%N
  else if ((97 <=? n) && (n <=? 102))%N then Some (n - 87)%N
  else None.

Definition hex4 (a b c d : ascii) : option N :=
  match hex_val a, hex_val b, hex_val c, hex_val d with
  | Some x, Some y, Some z, Some w => Some (((x * 16 + y) * 16 + z) * 16 + w)%N
  | _, _, _, _ => None
  end.

(** The one-character escapes. *)
Definition unescape (esc : ascii) : option ascii :=
  let n := N_of_ascii esc in
  if (n =? 34)%N then Some esc                       (* quote *)
  else if (n =? 92)%N then Some esc                  (* backslash *)
  else if (n =? 47)%N then Some esc                  (* slash *)
  else if (n =? 98)%N then Some (ascii_of_nat 8)     (* b *)
  else if (n =? 102)%N then Some (ascii_of_nat 12)   (* f *)
  else if (n =? 110)%N then Some (ascii_of_nat 10)   (* n *)
  else if (n =? 114)%N then Some (ascii_of_nat 13)   (* r *)
  else if (n =? 116)%N then Some (ascii_of_nat 9)    (* t *)
  else None.

Definition push (c : ascii) (r : scanned string) : scanned string :=
  match r with
  | inl f => inl f
  | inr (body, rest, p) => inr (String c body, rest, p)
  end.

(** [scanstring]: [s] starts after the opening quote, at index [pos];
    [begin] is the index of the opening quote. *)
Fixpoint scanstring (s : string) (pos begin : nat) : scanned string :=
  match s with
  | EmptyString => inl (DecodeError "Unterminated string starting at" begin)
  | String c s' =>
      if is_char 34 c then inr (EmptyString, s', S pos)
      else if is_char 92 c then
        match s' with
        | EmptyString => inl (DecodeError "Unterminated string starting at" begin)
        | String esc s'' =>
            if is_char 117 esc then
              match s'' with
              | String h1 (String h2 (String h3 (String h4 r4))) =>
                  match r4 with
                  | EmptyString => inl (DecodeError "Invalid \uXXXX escape" (S pos))
                  | String _ _ =>
                      match hex4 h1 h2 h3 h4 with
                      | None => inl (DecodeError "Invalid \uXXXX escape" (S pos))
                      | Some code =>
                          if (code <? 256)%N
                          then push (ascii_of_N code) (scanstring r4 (6 + pos) begin)
                          else inl (OutsideModel (S pos))
                      end
                  end
              | _ => inl (DecodeError "Invalid \uXXXX escape" (S pos))
              end
            else
              match unescape esc with
              | Some ch => push ch (scanstring s'' (2 + pos) begin)
              | None => inl (DecodeError "Invalid \escape" pos)
              end
        end
      else if (N_of_ascii c <? 32)%N then
        inl (DecodeError "Invalid control character at" pos)
      else push c (scanstring s' (S pos) begin)
  end.

Fixpoint span_digits (s : string) : string * string :=
  match s with
  | EmptyString => (EmptyString, EmptyString)
  | String c s' =>
      if is_digit c then let (d, r) := span_digits s' in (String c d, r)
      else (EmptyString, s)
  end.

(** The integer part of [NUMBER_RE]: [0|[1-9][0-9]*]. *)
Definition match_int (s : string) : option (string * string) :=
  match s with
  | EmptyString => None
  | String c s' =>
      if is_char 48 c then Some (String c EmptyString, s')
      else if is_digit c then let (d, r) := span_digits s' in Some (String c d, r)
      else None
  end.

(** [(\.[0-9]+)?] *)
Definition match_frac (s : string) : string * string :=
  match s with
  | String c s' =>
      if is_char 46 c then
        match span_digits s' with
        | (EmptyString, _) => (EmptyString, s)
        | (d, r) => (String c d, r)
        end
      else (EmptyString, s)
  | EmptyString => (EmptyString, s)
  end.

(** [([eE][-+]?[0-9]+)?] *)
Definition match_exp (s : string) : string * string :=
  match s with
  | String c s' =>
      if is_char 101 c || is_char 69 c then
        match s' with
        | String sg s'' =>
            if is_char 43 sg || is_char 45 sg then
              match span_digits s'' with
              | (EmptyString, _) => (EmptyString, s)
              | (d, r) => (String c (String sg d), r)
              end
            else
              match span_digits s' with
              | (EmptyString, _) => (EmptyString, s)
              | (d, r) => (String c d, r)
              end
        | EmptyString => (EmptyString, s)
        end
      else (EmptyString, s)
  | EmptyString => (EmptyString, s)
  end.

(** [NUMBER_RE.match]: the lexeme and what follows it. *)
Definition match_number (s : string) : option (string * string) :=
  let '(sign, s1) :=
    match s with
    | String c s' => if is_char 45 c then (String c EmptyString, s') else (EmptyString, s)
    | EmptyString => (EmptyString, s)
    end in
  match match_int s1 with
  | None => None
  | Some (i, s2) =>
      let (f, s3) := match_frac s2 in
      let (e, s4) := match_exp s3 in
      Some (sign ++ i ++ f ++ e, s4)
  end.

Definition literal (name : string) (v : value) (s : string) (pos : nat)
  : option (value * string * nat) :=
  if startswith name s
  then Some (v, drop (String.length name) s, String.length name + pos)
  else None.

(** The constants and numbers of [scan_once]. *)
Definition scan_atom (s : string) (pos : nat) : scanned value :=
  match literal "null" VNone s pos with
  | Some r => inr r
  | None =>
  match literal "true" (VBool true) s pos with
  | Some r => inr r
  | None =>
  match literal "false" (VBool false) s pos with
  | Some r => inr r
  | None =>
  match literal "NaN" (VNum "NaN") s pos with
  | Some r => inr r
  | None =>
  match literal "Infinity" (VNum "Infinity") s pos with
  | Some r => inr r
  | None =>
  match literal "-Infinity" (VNum "-Infinity") s pos with
  | Some r => inr r
  | None =>
  match match_number s with
  | Some (lx, rest) => inr (VNum lx, rest, String.length lx + pos)
  | None => inl (DecodeError "Expecting value" pos)
  end end end end end end end.

Section Containers.

(** The scanner for the values inside a container. *)
Variable scan : string -> nat -> scanned value.

(** The members of an object, from a key on. *)
Fixpoint object_members (fuel : nat) (items : list (string * value))
    (s : string) (pos : nat) : scanned value :=
  match fuel with
  | O => inl OutOfFuel
  | S fuel' =>
      match s with
      | String c s1 =>
          if is_char 34 c then
            match scanstring s1 (S pos) pos with
            | inl f => inl f
            | inr (key, s2, p2) =>
                let (s3, p3) := skip_ws s2 p2 in
                match s3 with
                | String c3 s4 =>
                    if is_char 58 c3 then
                      let (s5, p5) := skip_ws s4 (S p3) in
                      match scan s5 p5 with
                      | inl f => inl f
                      | inr (v, s6, p6) =>
                          let items' := dict_set key v items in
                          let (s7, p7) := skip_ws s6 p6 in
                          match s7 with
                          | String c7 s8 =>
                              if is_char 125 c7 then inr (VDict items', s8, S p7)
                              else if is_char 44 c7 then
                                let (s9, p9) := skip_ws s8 (S p7) in
                                object_members fuel' items' s9 p9
                              else inl (DecodeError "Expecting ',' delimiter" p7)
                          | EmptyString =>
                              inl (DecodeError "Expecting ',' delimiter" p7)
                          end
                      end
                    else inl (DecodeError "Expecting ':' delimiter" p3)
                | EmptyString => inl (DecodeError "Expecting ':' delimiter" p3)
                end
            end
          else inl (DecodeError
                      "Expecting property name enclosed in double quotes" pos)
      | EmptyString =>
          inl (DecodeError "Expecting property name enclosed in double quotes" pos)
      end
  end.

(** [s] starts after the opening brace. *)
Definition parse_object (fuel : nat) (s : string) (pos : nat) : scanned value :=
  let (s1, p1) := skip_ws s pos in
  match s1 with
  | String c s2 =>
      if is_char 125 c then inr (VDict [], s2, S p1)
      else object_members fuel [] s1 p1
  | EmptyString => object_members fuel [] s1 p1
  end.

(** The elements of an array, from a value on. *)
Fixpoint array_elements (fuel : nat) (acc : list value) (s : string) (pos : nat)
  : scanned value :=
  match fuel with
  | O => inl OutOfFuel
  | S fuel' =>
      match scan s pos with
      | inl f => inl f
      | inr (v, s1, p1) =>
          let acc' := (acc ++ [v])%list in
          let (s2, p2) := skip_ws s1 p1 in
          match s2 with
          | String c s3 =>
              if is_char 93 c then inr (VList acc', s3, S p2)
              else if is_char 44 c then
                let (s4, p4) := skip_ws s3 (S p2) in
                array_elements fuel' acc' s4 p4
              else inl (DecodeError "Expecting ',' delimiter" p2)
          | EmptyString => inl (DecodeError "Expecting ',' delimiter" p2)
          end
      end
  end.

(** [s] starts after the opening bracket. *)
Definition parse_array (fuel : nat) (s : string) (pos : nat) : scanned value :=
  let (s1, p1) := skip_ws s pos in
  match s1 with
  | String c s2 =>
      if is_char 93 c then inr (VList [], s2, S p1)
      else array_elements fuel [] s1 p1
  | EmptyString => array_elements fuel [] s1 p1
  end.

End Containers.

(** [scan_once]; the [StopIteration] it raises where no value starts is
    turned into "Expecting value" by each of its callers, so it is
    reported as that error here. *)
Fixpoint scan_once (fuel : nat) (s : string) (pos : nat) : scanned value :=
  match fuel with
  | O => inl OutOfFuel
  | S fuel' =>
      match s with
      | EmptyString => inl (DecodeError "Expecting value" pos)
      | String c s' =>
          if is_char 34 c then
            match scanstring s' (S pos) pos with
            | inl f => inl f
            | inr (body, rest, p) => inr (VStr body, rest, p)
            end
          else if is_char 123 c then parse_object (scan_once fuel') fuel' s' (S pos)
          else if is_char 91 c then parse_array (scan_once fuel') fuel' s' (S pos)
          else scan_atom s pos
      end
  end.

(** [lineno] and [colno] of [JSONDecodeError]. *)
Fixpoint line_col (doc : string) (pos : nat) (line col : N) : N * N :=
  match pos, doc with
  | S pos', String c doc' =>
      if is_char 10 c then line_col doc' pos' (N.succ line) 1%N
      else line_col doc' pos' line (N.succ col)
  | _, _ => (line, col)
  end.

Definition JSONDecodeError (msg doc : string) (pos : nat) : exn :=
  let (line, col) := line_col doc pos 1%N 1%N in
  Exn "JSONDecodeError"
    (msg ++ ": line " ++ str_N line ++ " column " ++ str_N col
     ++ " (char " ++ str_N (N.of_nat pos) ++ ")").

Definition exn_of_failure (doc : string) (f : failure) : exn :=
  match f with
  | DecodeError msg pos => JSONDecodeError msg doc pos
  | OutsideModel pos => Exn "OutsideModel" ("escape above U+00FF at char " ++ str_N (N.of_nat pos))
  | OutOfFuel => Exn "OutOfFuel" ""
  end.

(** [json.loads(doc)] *)
Definition loads (doc : string) : res value :=
  let (s0, p0) := skip_ws doc 0 in
  match scan_once (S (String.length doc)) s0 p0 with
  | inl f => inl (exn_of_failure doc f)
  | inr (v, rest, p) =>
      let (s1, p1) := skip_ws rest p in
      match s1 with
      | EmptyString => inr v
      | String _ _ => inl (JSONDecodeError "Extra data" doc p1)
      end
  end.

(** A scan is fine below [n] when it did not run out of fuel and, if it
    returned, left fewer than [n] characters. *)
Definition fine {A} (n : nat) (r : scanned A) : Prop :=
  match r with
  | inl OutOfFuel => False
  | inl _ => True
  | inr (_, rest, _) => String.length rest < n
  end.

End PyJson.

(* ===================================================================== *)
(** ** Vocabulary of the properties *)
(* ===================================================================== *)

Module Spec.

Import agent_discovery.




(** The documented default of each field. *)
Definition defaults : SpecLocation :=
  mkSpecLocation (VStr "") VNone (VStr "yaml") (VStr "unknown") VNone (VStr "low")
    (VStr "").

(** The record whose seven fields are the values of the seven keys. *)
Definition record_of (items : list (string * value)) : option SpecLocation :=
  match lookup "download_url" items, lookup "version" items, lookup "format" items,
        lookup "versioning_strategy" items, lookup "github_info" items,
        lookup "confidence" items, lookup "reasoning" items with
  | Some u, Some v, Some f, Some s, Some g, Some c, Some r =>
      Some (mkSpecLocation u v f s g c r)
  | _, _, _, _, _, _, _ => None
  end.

Definition nonempty_str (o : option value) : bool :=
  match o with
  | Some (VStr s) => negb (String.eqb s "")
  | _ => false
  end.

(** A [github_info] that carries owner, repo and path, each non-empty. *)
Definition carries_triple (g : value) : bool :=
  match g with
  | VDict items =>
      nonempty_str (lookup "owner" items) && nonempty_str (lookup "repo" items)
      && nonempty_str (lookup "path" items)
  | _ => false
  end.

(** An HTTP success status: 2xx. *)
Definition success_status (s : N) : bool := ((200 <=? s) && (s <? 300))%N.

(** The check with the two unquoted keywords only. *)
Definition two_keyword_check (content : string) : bool :=
  contains "openapi:" (lower content) || contains "swagger:" (lower content).

(** [s] ends with the character [c]. *)
Fixpoint endswith_char (c : ascii) (s : string) : bool :=
  match s with
  | EmptyString => false
  | String x EmptyString => Ascii.eqb x c
  | String _ s' => endswith_char c s'
  end.

(** What the reply of the service parses to: the first content block,
    without its code fence, stripped, decoded. *)
Definition reply_object (E : env) (message : list string) : res value :=
  (response_text <~ py_index message 0 ;;
   response_text <~ strip_code_fence response_text ;;
   json_loads E (strip response_text))%res.

(** An environment whose reasoning service always answers [message]. *)
Definition with_reply (E : env) (message : list string) : env :=
  mkEnv (requests_get E) (requests_head E) (fun _ => inr message) (json_loads E).

(** A closed environment: fixed outcomes of the three calls, and the
    reference decoder. *)
Definition stub (get head : res Response) (reply : res (list string)) : env :=
  mkEnv (fun _ _ => get) (fun _ _ _ => head) (fun _ => reply) PyJson.loads.

Definition ok_response (status : N) (body : string) : res Response :=
  inr (mkResponse status "" "" body).

Definition unreachable : exn := Exn "ConnectionError" "connection refused".

(** The outcome of an [except] branch that prints [line] and returns [a]. *)
Definition print_then {A} (R : runtime) (line : printed) (a : A) : res A :=
  match stdout_print R line with
  | inl e => inl e
  | inr _ => inr a
  end.

(** What the body of [_fetch_documentation] yields after its first line. *)
Definition retrieved (E : env) (u : string) : res string :=
  (response <~ requests_get E u 30 ;;
   _ <~ raise_for_status response ;;
   inr (take 100000 (text response)))%res.

(** What the [try] of [_analyze_with_claude] yields. *)
Definition analysed (R : runtime) (E : env) (request : MessagesRequest)
  : res SpecLocation :=
  (message <~ messages_create E request ;;
   result <~ reply_object E message ;;
   spec_of_result R result)%res.

(** What [verify_spec_url] yields when the check does not succeed: the
    line with the status, then [False]. *)
Definition not_a_spec (R : runtime) (status : N) : res bool :=
  match stdout_print R (PrintNotASpec status) with
  | inl e => print_then R (PrintVerifyError e) false
  | inr _ => inr false
  end.

(** A standard output that accepts every line. *)
Definition accepting (R : runtime) : Prop :=
  forall line, stdout_print R line = inr tt.

(** A standard output on which [print] raises [e] for the lines that
    [same] selects, and that accepts the other lines. *)
Definition refusing (same : printed -> bool) (e : exn) : runtime :=
  mkRuntime (fun line => if same line then inl e else inr tt) (fun _ => "").

End Spec.

(* ===================================================================== *)
(** ** Sample replies and environments *)
(* ===================================================================== *)

Module Samples.
Import agent_discovery Typed Spec.

Definition docs_url : string := "https://docs.acme.test/api".
Definition spec_url : string := "https://raw.githubusercontent.com/acme/widgets-oai/main/openapi.yaml".

(** An environment whose service answers with the one text block [t]. *)
Definition answering (t : string) : env :=
  stub (ok_response 200 "<html>docs</html>") (ok_response 200 "") (inr [t]).

Definition analyze_sample (E : env) : M SpecLocation :=
  _analyze_with_claude E "acme" "widgets" docs_url "<html>docs</html>" [].

(** [{"format": "xml"}] *)
Definition xml_reply : string := "{" ++ q "format" ++ ": " ++ q "xml" ++ "}".

(** [{"github_info": {}}] *)
Definition empty_github_reply : string := "{" ++ q "github_info" ++ ": {}}".

(** [{"confidence": "high"}] *)
Definition partial_reply : string := "{" ++ q "confidence" ++ ": " ++ q "high" ++ "}".

Definition field (k v : string) : string := q k ++ ": " ++ v.

(** A reply with all seven keys; [r] is the text of the reasoning value. *)
Definition full_reply (r : string) : string :=
  "{" ++ join ", " [
    field "download_url" (q spec_url);
    field "version" "null";
    field "format" (q "yaml");
    field "versioning_strategy" (q "in-spec");
    field "github_info"
      ("{" ++ join ", " [field "owner" (q "acme"); field "repo" (q "widgets-oai");
                         field "path" (q "openapi.yaml")] ++ "}");
    field "confidence" (q "high");
    field "reasoning" r] ++ "}".

Definition full_items (r : value) : list (string * value) :=
  [("download_url", VStr spec_url); ("version", VNone); ("format", VStr "yaml");
   ("versioning_strategy", VStr "in-spec");
   ("github_info", VDict [("owner", VStr "acme"); ("repo", VStr "widgets-oai");
                          ("path", VStr "openapi.yaml")]);
   ("confidence", VStr "high"); ("reasoning", r)].

End Samples.

(* ===================================================================== *)
(** ** More vocabulary and samples *)
(* ===================================================================== *)

Module SpecMore.

(** A [github_info] that is a dict with the keys owner, repo and path. *)
Definition has_github_keys (g : value) : bool :=
  match g with
  | VDict items =>
      match lookup "owner" items, lookup "repo" items, lookup "path" items with
      | Some _, Some _, Some _ => true
      | _, _, _ => false
      end
  | _ => false
  end.

(** [o[k1][k2]...] on nested dicts. *)
Fixpoint lookup_path (path : list string) (o : value) : option value :=
  match path with
  | [] => Some o
  | k :: path' =>
      match o with
      | VDict items =>
          match lookup k items with
          | Some v => lookup_path path' v
          | None => None
          end
      | _ => None
      end
  end.

(** The record with the keys of every dict in it sorted. *)
Definition sorted_record (loc : agent_discovery.SpecLocation)
  : agent_discovery.SpecLocation :=
  agent_discovery.mkSpecLocation
    (sort_keys (agent_discovery.download_url loc))
    (sort_keys (agent_discovery.version loc))
    (sort_keys (agent_discovery.format loc))
    (sort_keys (agent_discovery.versioning_strategy loc))
    (sort_keys (agent_discovery.github_info loc))
    (sort_keys (agent_discovery.confidence loc))
    (sort_keys (agent_discovery.reasoning loc)).

(** The four fields the [/discover] route reads from the body. *)
Definition read_fields (data : value) : res (value * value * value * value) :=
  (v <~ py_getitem data "vendor" ;;
   a <~ py_getitem data "api_name" ;;
   d <~ py_getitem data "documentation_url" ;;
   h <~ py_get data "hints" (VList []) ;;
   inr (v, a, d, h))%res.

End SpecMore.

Module SamplesMore.

Import agent_discovery Spec Samples.

(** A page of [n] letters followed by [tail]. *)
Definition long_page (n : N) (tail : string) : string :=
  N.iter n (String "a"%char) tail.

(** The record of the full reply. *)
Definition full_record : SpecLocation :=
  mkSpecLocation (VStr spec_url) VNone (VStr "yaml") (VStr "in-spec")
    (VDict [("owner", VStr "acme"); ("repo", VStr "widgets-oai");
            ("path", VStr "openapi.yaml")])
    (VStr "high") (VStr "linked from the docs").

(** A record whose github_info lacks the repo. *)
Definition partial_github_record : SpecLocation :=
  mkSpecLocation (VStr spec_url) (VStr "") (VStr "yaml") (VStr "unknown")
    (VDict [("owner", VStr "acme")]) (VStr "medium") (VStr "").

(** A request body of the [/discover] route. *)
Definition discover_body : list (string * value) :=
  [("vendor", VStr "acme"); ("api_name", VStr "widgets");
   ("documentation_url", VStr docs_url); ("hints", VList [VStr "look for a download"])].

(** An environment for the whole flow: the page is served, the service
    names the raw file, the probe answers 200 and the file is a
    specification. *)
Definition serving : env :=
  mkEnv (fun u _ => if String.eqb u spec_url then ok_response 200 "openapi: 3.0.0"
                    else ok_response 200 "<html>docs</html>")
        (fun _ _ _ => ok_response 200 "")
        (fun _ => inr [full_reply (q "linked from the docs")])
        PyJson.loads.

End SamplesMore.

(* ===================================================================== *)
(** ** Facts about the string primitives *)
(* ===================================================================== *)

Module PyStrFacts.

Lemma app_empty_r (s : string) : s ++ "" = s.
Proof. induction s as [|c s IH]; simpl; [reflexivity | now rewrite IH]. Qed.

Lemma app_assoc (a b c : string) : (a ++ b) ++ c = a ++ b ++ c.
Proof. induction a as [|x a IH]; simpl; [reflexivity | now rewrite IH]. Qed.

Lemma length_app (a b : string) :
  String.length (a ++ b) = String.length a + String.length b.
Proof. induction a as [|x a IH]; simpl; [reflexivity | now rewrite IH]. Qed.

Lemma startswith_app (p r : string) : startswith p (p ++ r) = true.
Proof.
  induction p as [|c p IH]; simpl; [reflexivity|].
  now rewrite Ascii.eqb_refl.
Qed.

Lemma drop_app (p r : string) : drop (String.length p) (p ++ r) = r.
Proof. induction p as [|c p IH]; simpl; [now destruct r | exact IH]. Qed.

(** A prefix can be split off. *)
Lemma startswith_split (p s : string) :
  startswith p s = true -> s = p ++ drop (String.length p) s.
Proof.
  revert s; induction p as [|c p IH]; intros s H; simpl.
  - now destruct s.
  - destruct s as [|c' s]; simpl in H; [discriminate|].
    apply andb_prop in H as [Hc H]. apply Ascii.eqb_eq in Hc as ->.
    now rewrite <- (IH s H).
Qed.

Lemma cut_nil (sep : string) :
  cut sep "" = if startswith sep "" then Some ("", drop (String.length sep) "") else None.
Proof. reflexivity. Qed.

Lemma cut_cons (sep : string) (c : ascii) (s : string) :
  cut sep (String c s) =
  if startswith sep (String c s)
  then Some ("", drop (String.length sep) (String c s))
  else match cut sep s with
       | Some (b, a) => Some (String c b, a)
       | None => None
       end.
Proof. reflexivity. Qed.

(** [cut] finds an occurrence ... *)
Lemma cut_sound {sep s b a : string} :
  cut sep s = Some (b, a) -> s = b ++ sep ++ a.
Proof.
  revert b a; induction s as [|c s IH]; intros b a.
  - rewrite cut_nil. destruct (startswith sep "") eqn:P; [|discriminate].
    intros [= <- <-]. exact (startswith_split _ _ P).
  - rewrite cut_cons. destruct (startswith sep (String c s)) eqn:P.
    + intros [= <- <-]. exact (startswith_split _ _ P).
    + destruct (cut sep s) as [[b' a']|] eqn:C; [|discriminate].
      intros [= <- <-]. simpl. now rewrite <- (IH _ _ eq_refl).
Qed.

(** ... and it is the leftmost one. *)
Lemma cut_leftmost (sep b1 a1 : string) :
  exists b a, cut sep (b1 ++ sep ++ a1) = Some (b, a)
              /\ String.length b <= String.length b1.
Proof.
  induction b1 as [|c b1 (b & a & C & L)].
  - exists "", a1. split; [|simpl; lia].
    change ("" ++ sep ++ a1) with (sep ++ a1).
    destruct (sep ++ a1) as [|c s] eqn:Es.
    + rewrite cut_nil, <- Es, startswith_app, drop_app. reflexivity.
    + rewrite cut_cons, <- Es, startswith_app, drop_app. reflexivity.
  - change (String c b1 ++ sep ++ a1) with (String c (b1 ++ sep ++ a1)).
    rewrite cut_cons.
    destruct (startswith sep (String c (b1 ++ sep ++ a1))).
    + eexists _, _. split; [reflexivity | simpl; lia].
    + rewrite C. eexists _, _. split; [reflexivity | simpl; lia].
Qed.

(** [sep in s] is: [s] has an occurrence of [sep]. *)
Lemma contains_iff (sep s : string) :
  contains sep s = true <-> exists b a, s = b ++ sep ++ a.
Proof.
  unfold contains. split.
  - destruct (cut sep s) as [[b a]|] eqn:C; [|discriminate].
    intros _. exists b, a. exact (cut_sound C).
  - intros (b1 & a1 & ->).
    destruct (cut_leftmost sep b1 a1) as (b & a & -> & _). reflexivity.
Qed.

Lemma contains_app_sep (sep super s : string) :
  contains sep super = true -> contains super s = true -> contains sep s = true.
Proof.
  intros H1 H2. apply contains_iff in H1 as (x & y & ->).
  apply contains_iff in H2 as (b & a & ->). apply contains_iff.
  exists (b ++ x), (y ++ a). now rewrite !app_assoc.
Qed.

Lemma cut_length {sep s b a : string} :
  cut sep s = Some (b, a) ->
  String.length s = String.length b + String.length sep + String.length a.
Proof. intros C. rewrite (cut_sound C), !length_app. lia. Qed.

Lemma cut_nil_nonempty {sep : string} : sep <> "" -> cut sep "" = None.
Proof. destruct sep; [intros H; now elim H | reflexivity]. Qed.

Lemma sep_length {sep : string} : sep <> "" -> 0 < String.length sep.
Proof. destruct sep; [intros H; now elim H | simpl; lia]. Qed.

Lemma split_fuel_S (fuel : nat) (sep s : string) :
  split_fuel (S fuel) sep s =
  match cut sep s with
  | None => [s]
  | Some (b, a) => b :: split_fuel fuel sep a
  end.
Proof. reflexivity. Qed.

Lemma split_fuel_O (sep s : string) :
  split_fuel 0 sep s =
  match cut sep s with
  | None => [s]
  | Some (b, a) => [b; a]
  end.
Proof. reflexivity. Qed.

(** The fuel of [split] is enough: more of it changes nothing. *)
Lemma split_fuel_irrelevant (sep : string) :
  sep <> "" ->
  forall f1 f2 t, String.length t <= f1 -> String.length t <= f2 ->
                  split_fuel f1 sep t = split_fuel f2 sep t.
Proof.
  intros Hsep. induction f1 as [|f1 IH]; intros f2 t L1 L2.
  - destruct t; [|simpl in L1; lia].
    rewrite split_fuel_O, (cut_nil_nonempty Hsep).
    destruct f2; [rewrite split_fuel_O | rewrite split_fuel_S];
      now rewrite (cut_nil_nonempty Hsep).
  - rewrite split_fuel_S. destruct (cut sep t) as [[b a]|] eqn:C.
    + pose proof (cut_length C) as Len. pose proof (sep_length Hsep).
      destruct f2 as [|f2]; [lia|].
      rewrite split_fuel_S, C. f_equal. apply IH; lia.
    + destruct f2; [rewrite split_fuel_O | rewrite split_fuel_S]; now rewrite C.
Qed.

Lemma split_fuel_enough (sep : string) (fuel : nat) (s : string) :
  sep <> "" -> String.length s <= fuel ->
  split_fuel fuel sep s = split sep s.
Proof.
  intros Hsep L. unfold split. apply split_fuel_irrelevant; [exact Hsep | exact L | reflexivity].
Qed.

Lemma split_cut {sep s b a : string} :
  sep <> "" -> cut sep s = Some (b, a) -> split sep s = b :: split sep a.
Proof.
  intros Hsep C. unfold split at 1.
  pose proof (cut_length C) as Len. pose proof (sep_length Hsep).
  destruct (String.length s) as [|n] eqn:E; [lia|].
  rewrite split_fuel_S, C. f_equal. apply split_fuel_enough; [exact Hsep | lia].
Qed.

Lemma split_none (sep s : string) : cut sep s = None -> split sep s = [s].
Proof.
  intros C. unfold split.
  destruct (String.length s); [rewrite split_fuel_O | rewrite split_fuel_S]; now rewrite C.
Qed.

Lemma join_cons (sep x : string) (l : list string) :
  l <> [] -> join sep (x :: l) = x ++ sep ++ join sep l.
Proof. destruct l; [intros H; now elim H | reflexivity]. Qed.

Lemma split_nonempty (sep s : string) : split sep s <> [].
Proof.
  unfold split. destruct (String.length s);
    [rewrite split_fuel_O | rewrite split_fuel_S];
    destruct (cut sep s) as [[? ?]|]; discriminate.
Qed.

(** The pieces of a split, joined by the separator, give the string back. *)
Lemma join_split (sep s : string) : sep <> "" -> join sep (split sep s) = s.
Proof.
  intros Hsep.
  remember (String.length s) as n eqn:En.
  revert s En. induction n as [n IH] using lt_wf_ind. intros s En.
  destruct (cut sep s) as [[b a]|] eqn:C.
  - rewrite (split_cut Hsep C), join_cons by apply split_nonempty.
    pose proof (cut_length C) as Len. pose proof (sep_length Hsep).
    rewrite (IH (String.length a)); [|lia|reflexivity].
    symmetry. exact (cut_sound C).
  - now rewrite (split_none _ _ C).
Qed.




Lemma len_take_long (n : N) (s : string) : (n <= len s)%N -> len (take n s) = n.
Proof.
  revert n; induction s as [|c s IH]; intros n L; simpl in *.
  - lia.
  - destruct (N.eqb_spec n 0); simpl; [lia|]. rewrite IH; lia.
Qed.

End PyStrFacts.
Import PyStrFacts.

(* ===================================================================== *)
(** ** The reference decoder has fuel enough *)
(* ===================================================================== *)

Module PyJsonFacts.
Import PyJson.

Lemma fine_le {A} (n m : nat) (r : scanned A) : fine n r -> n <= m -> fine m r.
Proof. destruct r as [[]|[[? ?] ?]]; simpl; lia || tauto. Qed.

Lemma skip_ws_len (s : string) (pos : nat) (s' : string) (pos' : nat) :
  skip_ws s pos = (s', pos') -> String.length s' <= String.length s.
Proof.
  revert pos. induction s as [|c s IH]; intros pos; simpl.
  - intros [= <- _]. simpl; lia.
  - destruct (is_ws c).
    + intros H. apply IH in H. lia.
    + intros [= <- _]. simpl; lia.
Qed.

Lemma push_fine (n : nat) (c : ascii) (r : scanned string) :
  fine n (push c r) <-> fine n r.
Proof. destruct r as [[]|[[? ?] ?]]; simpl; tauto. Qed.

Lemma scanstring_fine (s : string) (pos begin : nat) :
  fine (S (String.length s)) (scanstring s pos begin)
  /\ (s <> "" -> fine (String.length s) (scanstring s pos begin)).
Proof.
  remember (String.length s) as n eqn:En. revert s pos En.
  induction n as [n IH] using lt_wf_ind. intros s pos En.
  assert (G : s <> "" -> fine n (scanstring s pos begin)).
  { destruct s as [|c s1]; [congruence|]. intros _. simpl in En. simpl.
    destruct (is_char 34 c); [simpl; lia|].
    destruct (is_char 92 c).
    - destruct s1 as [|esc s2]; [exact I|]. simpl in En.
      destruct (is_char 117 esc).
      + destruct s2 as [|h1 [|h2 [|h3 [|h4 r4]]]]; try exact I.
        destruct r4 as [|c5 r5]; [exact I|].
        destruct (hex4 h1 h2 h3 h4); [|exact I].
        destruct (_ <? _)%N; [|exact I].
        apply push_fine. simpl in En.
        apply (fine_le (S (String.length (String c5 r5)))); [|simpl; lia].
        eapply (IH (String.length (String c5 r5))); [simpl; lia | reflexivity].
      + destruct (unescape esc); [|exact I].
        apply push_fine.
        apply (fine_le (S (String.length s2))); [|lia].
        eapply (IH (String.length s2)); [lia | reflexivity].
    - destruct (_ <? _)%N; [exact I|].
      apply push_fine.
      apply (fine_le (S (String.length s1))); [|lia].
      eapply (IH (String.length s1)); [lia | reflexivity]. }
  split; [|exact G].
  destruct s; [exact I|]. apply (fine_le n); [apply G; discriminate | lia].
Qed.

Lemma span_digits_len (s d r : string) :
  span_digits s = (d, r) -> String.length s = String.length d + String.length r.
Proof.
  revert d r. induction s as [|c s IH]; intros d r; simpl.
  - intros [= <- <-]. reflexivity.
  - destruct (is_digit c).
    + destruct (span_digits s) as [d' r'] eqn:E. intros [= <- <-].
      simpl. now rewrite (IH _ _ eq_refl).
    + intros [= <- <-]. reflexivity.
Qed.

Lemma match_int_len (s i r : string) :
  match_int s = Some (i, r) -> String.length r < String.length s.
Proof.
  destruct s as [|c s]; simpl; [discriminate|].
  destruct (is_char 48 c); [intros [= _ <-]; lia|].
  destruct (is_digit c); [|discriminate].
  destruct (span_digits s) as [d r'] eqn:E. intros [= _ <-].
  apply span_digits_len in E. lia.
Qed.

Lemma match_frac_len (s f r : string) :
  match_frac s = (f, r) -> String.length r <= String.length s.
Proof.
  destruct s as [|c s]; simpl; [intros [= _ <-]; simpl; lia|].
  destruct (is_char 46 c); [|intros [= _ <-]; simpl; lia].
  destruct (span_digits s) as [d r'] eqn:E. apply span_digits_len in E.
  destruct d; intros [= _ <-]; simpl in *; lia.
Qed.

Lemma match_exp_len (s e r : string) :
  match_exp s = (e, r) -> String.length r <= String.length s.
Proof.
  destruct s as [|c s]; simpl; [intros [= _ <-]; simpl; lia|].
  destruct (_ || _); [|intros [= _ <-]; simpl; lia].
  destruct s as [|sg s']; [intros [= _ <-]; simpl; lia|].
  destruct (_ || _).
  - destruct (span_digits s') as [d r'] eqn:E. apply span_digits_len in E.
    destruct d; intros [= _ <-]; simpl in *; lia.
  - destruct (span_digits (String sg s')) as [d r'] eqn:E. apply span_digits_len in E.
    destruct d; intros [= _ <-]; simpl in *; lia.
Qed.

Lemma match_number_len (s lx r : string) :
  match_number s = Some (lx, r) -> String.length r < String.length s.
Proof.
  unfold match_number.
  destruct (match s with
            | String c s' => if is_char 45 c then (String c "", s') else ("", s)
            | "" => ("", s)
            end) as [sign s1] eqn:Es.
  assert (L1 : String.length s1 <= String.length s).
  { destruct s as [|c s']; [injection Es as _ <-; simpl; lia|].
    destruct (is_char 45 c); injection Es as _ <-; simpl; lia. }
  destruct (match_int s1) as [[i s2]|] eqn:Ei; [|discriminate].
  apply match_int_len in Ei.
  destruct (match_frac s2) as [f s3] eqn:Ef. apply match_frac_len in Ef.
  destruct (match_exp s3) as [e s4] eqn:Ee. apply match_exp_len in Ee.
  intros [= _ <-]. lia.
Qed.

Lemma drop_len (n : nat) (s : string) :
  String.length (drop n s) = String.length s - n.
Proof.
  revert s. induction n as [|n IH]; intros s; simpl; [lia|].
  destruct s; simpl; [reflexivity | apply IH].
Qed.

Lemma literal_len (name : string) (v : value) (s : string) (pos : nat)
    (r : value * string * nat) :
  name <> "" -> literal name v s pos = Some r ->
  String.length (snd (fst r)) < String.length s.
Proof.
  intros Hn. unfold literal. destruct (startswith name s) eqn:P; [|discriminate].
  intros [= <-]. simpl. rewrite drop_len.
  pose proof (startswith_split _ _ P) as Eq.
  assert (L : String.length s = String.length name + String.length (drop (String.length name) s))
    by (rewrite Eq at 1; apply length_app).
  destruct name; [congruence|]. simpl in *. lia.
Qed.

Lemma scan_atom_fine (s : string) (pos : nat) : fine (String.length s) (scan_atom s pos).
Proof.
  unfold scan_atom.
  repeat match goal with
         | |- context [literal ?n ?v s pos] =>
             let E := fresh "E" in
             destruct (literal n v s pos) as [[[? ?] ?]|] eqn:E;
             [apply literal_len in E; [exact E | discriminate]|]
         end.
  destruct (match_number s) as [[lx rest]|] eqn:Em; [|exact I].
  simpl. exact (match_number_len _ _ _ Em).
Qed.

Section Containers.

Variable scan : string -> nat -> scanned value.
Variable bound : nat.
Hypothesis scan_fine :
  forall t p, String.length t < bound -> fine (String.length t) (scan t p).

Lemma object_members_fine (fuel : nat) :
  forall items s pos,
    String.length s < fuel -> String.length s < bound ->
    fine (String.length s) (object_members scan fuel items s pos).
Proof.
  induction fuel as [|fuel IH]; intros items s pos Lf Lb; [lia|].
  simpl. destruct s as [|c s1]; [exact I|]. simpl in Lf, Lb.
  destruct (is_char 34 c); [|exact I].
  pose proof (proj1 (scanstring_fine s1 (S pos) pos)) as F1.
  destruct (scanstring s1 (S pos) pos) as [f|[[key s2] p2]]; [destruct f; easy|].
  simpl in F1.
  destruct (skip_ws s2 p2) as [s3 p3] eqn:E3. apply skip_ws_len in E3.
  destruct s3 as [|c3 s4]; [exact I|]. simpl in E3.
  destruct (is_char 58 c3); [|exact I].
  destruct (skip_ws s4 (S p3)) as [s5 p5] eqn:E5. apply skip_ws_len in E5.
  pose proof (scan_fine s5 p5 ltac:(lia)) as F5.
  destruct (scan s5 p5) as [f|[[v s6] p6]]; [destruct f; easy|].
  simpl in F5.
  destruct (skip_ws s6 p6) as [s7 p7] eqn:E7. apply skip_ws_len in E7.
  destruct s7 as [|c7 s8]; [exact I|]. simpl in E7.
  destruct (is_char 125 c7); [simpl; lia|].
  destruct (is_char 44 c7); [|exact I].
  destruct (skip_ws s8 (S p7)) as [s9 p9] eqn:E9. apply skip_ws_len in E9.
  apply (fine_le (String.length s9)); [|simpl; lia].
  apply IH; lia.
Qed.

Lemma parse_object_fine (fuel : nat) (s : string) (pos : nat) :
  String.length s < fuel -> String.length s < bound ->
  fine (S (String.length s)) (parse_object scan fuel s pos).
Proof.
  intros Lf Lb. unfold parse_object.
  destruct (skip_ws s pos) as [s1 p1] eqn:E1. apply skip_ws_len in E1.
  assert (G : fine (S (String.length s)) (object_members scan fuel [] s1 p1)).
  { apply (fine_le (String.length s1)); [|lia]. apply object_members_fine; lia. }
  destruct s1 as [|c s2]; [exact G|].
  destruct (is_char 125 c); [simpl in *; lia | exact G].
Qed.

Lemma array_elements_fine (fuel : nat) :
  forall acc s pos,
    String.length s < fuel -> String.length s < bound ->
    fine (String.length s) (array_elements scan fuel acc s pos).
Proof.
  induction fuel as [|fuel IH]; intros acc s pos Lf Lb; [lia|].
  simpl.
  pose proof (scan_fine s pos Lb) as F0.
  destruct (scan s pos) as [f|[[v s1] p1]]; [destruct f; easy|].
  simpl in F0.
  destruct (skip_ws s1 p1) as [s2 p2] eqn:E2. apply skip_ws_len in E2.
  destruct s2 as [|c s3]; [exact I|]. simpl in E2.
  destruct (is_char 93 c); [simpl; lia|].
  destruct (is_char 44 c); [|exact I].
  destruct (skip_ws s3 (S p2)) as [s4 p4] eqn:E4. apply skip_ws_len in E4.
  apply (fine_le (String.length s4)); [|lia].
  apply IH; lia.
Qed.

Lemma parse_array_fine (fuel : nat) (s : string) (pos : nat) :
  String.length s < fuel -> String.length s < bound ->
  fine (S (String.length s)) (parse_array scan fuel s pos).
Proof.
  intros Lf Lb. unfold parse_array.
  destruct (skip_ws s pos) as [s1 p1] eqn:E1. apply skip_ws_len in E1.
  assert (G : fine (S (String.length s)) (array_elements scan fuel [] s1 p1)).
  { apply (fine_le (String.length s1)); [|lia]. apply array_elements_fine; lia. }
  destruct s1 as [|c s2]; [exact G|].
  destruct (is_char 93 c); [simpl in *; lia | exact G].
Qed.

End Containers.

(** With more fuel than characters, [scan_once] does not run out, and a
    value it returns has consumed at least one character. *)
Lemma scan_once_fine (fuel : nat) :
  forall s pos, String.length s < fuel -> fine (String.length s) (scan_once fuel s pos).
Proof.
  induction fuel as [|fuel IH]; intros s pos L; [lia|].
  simpl. destruct s as [|c s1]; [exact I|]. simpl in L.
  destruct (is_char 34 c).
  { pose proof (proj1 (scanstring_fine s1 (S pos) pos)) as F.
    destruct (scanstring s1 (S pos) pos) as [f|[[body rest] p]]; exact F. }
  destruct (is_char 123 c).
  { apply (parse_object_fine (scan_once fuel) fuel IH); lia. }
  destruct (is_char 91 c).
  { apply (parse_array_fine (scan_once fuel) fuel IH); lia. }
  apply scan_atom_fine.
Qed.

(** The fuel [loads] starts with is enough. *)
Lemma loads_fuel_enough (doc : string) (e : exn) :
  loads doc = inl e -> exn_class e <> "OutOfFuel".
Proof.
  unfold loads. destruct (skip_ws doc 0) as [s0 p0] eqn:E0. apply skip_ws_len in E0.
  pose proof (scan_once_fine (S (String.length doc)) s0 p0 ltac:(lia)) as F.
  destruct (scan_once (S (String.length doc)) s0 p0) as [f|[[v rest] p]].
  - intros [= <-]. destruct f; simpl in *; [|discriminate|easy].
    unfold JSONDecodeError. destruct (line_col doc pos 1 1). discriminate.
  - destruct (skip_ws rest p) as [s1 p1]. destruct s1; [discriminate|].
    intros [= <-]. unfold JSONDecodeError. destruct (line_col doc p1 1 1). discriminate.
Qed.

End PyJsonFacts.

(* ===================================================================== *)
(** ** The agent by cases *)
(* ===================================================================== *)

Module AgentFacts.
Import agent_discovery Spec.

Lemma bind_call {A B} (ev : event) (r : res A) (k : A -> M B) :
  bind ([ev], r) k =
  match r with
  | inl e => ([ev], inl e)
  | inr a => (ev :: fst (k a), snd (k a))
  end.
Proof. unfold bind; simpl. now destruct r. Qed.

Lemma bind_lift {A B} (r : res A) (k : A -> M B) :
  bind (lift r) k = match r with inl e => ([], inl e) | inr a => k a end.
Proof. unfold bind, lift; simpl. destruct r; [reflexivity|]. now destruct (k a). Qed.

Lemma bind_print {B} (R : runtime) (line : printed) (k : unit -> M B) :
  bind (print R line) k =
  match stdout_print R line with inl e => ([], inl e) | inr u => k u end.
Proof. apply bind_lift. Qed.

Lemma bind_ret_r {A} (c : M A) : bind c (fun x => ret x) = c.
Proof.
  unfold bind, ret. destruct c as [t [e|a]]; simpl; [reflexivity|].
  now rewrite app_nil_r.
Qed.

Lemma bind_pair {A B} (t : list event) (a : A) (k : A -> M B) :
  bind (t, inr a) k = ((t ++ fst (k a))%list, snd (k a)).
Proof. reflexivity. Qed.

Lemma bind_raise {A B} (t : list event) (e : exn) (k : A -> M B) :
  bind (t, inl e) k = (t, inl e).
Proof. reflexivity. Qed.

(** An [except] branch that returns. *)
Lemma try_except_ret {A} (c : M A) (f : exn -> A) :
  try_except c (fun e => ret (f e))
  = (fst c, inr (match snd c with inl e => f e | inr a => a end)).
Proof.
  unfold try_except, ret. destruct c as [t [e|a]]; simpl; [|reflexivity].
  now rewrite app_nil_r.
Qed.

(** An [except] branch that prints, then returns. *)
Lemma try_except_print {A} (R : runtime) (c : M A) (line : exn -> printed)
    (f : exn -> A) :
  try_except c (fun e => bind (print R (line e)) (fun _ => ret (f e)))
  = (fst c, match snd c with
            | inl e => print_then R (line e) (f e)
            | inr a => inr a
            end).
Proof.
  unfold try_except, print_then. destruct c as [t [e|a]]; simpl; [|reflexivity].
  rewrite bind_print. destruct (stdout_print R (line e)); simpl;
    now rewrite app_nil_r.
Qed.

Lemma print_then_accepting {A} (R : runtime) (line : printed) (a : A) :
  stdout_print R line = inr tt -> print_then R line a = inr a.
Proof. unfold print_then. now intros ->. Qed.

Lemma quiet_accepting : accepting quiet.
Proof. intros line. reflexivity. Qed.

Lemma map_str_of_VStr (R : runtime) (l : list string) :
  map (str_of R) (map VStr l) = l.
Proof. induction l as [|x l IH]; simpl; [reflexivity | now rewrite IH]. Qed.

(** [_fetch_documentation] by cases. *)
Lemma fetch_cases (R : runtime) (E : env) (url : value) :
  _fetch_documentation R E url =
  match stdout_print R PrintFetching with
  | inl e => ([], print_then R (PrintFetchError e) "")
  | inr _ =>
      ([RequestsGet (str_of R url) 30],
       match retrieved E (str_of R url) with
       | inl e => print_then R (PrintFetchError e) ""
       | inr page => inr page
       end)
  end.
Proof.
  unfold _fetch_documentation. rewrite try_except_print, bind_print.
  destruct (stdout_print R PrintFetching) as [e|[]]; [reflexivity|].
  unfold call_get, retrieved. rewrite bind_call.
  destruct (requests_get E (str_of R url) 30) as [e|response]; [reflexivity|].
  rewrite bind_lift. cbv beta iota delta [rbind].
  destruct (raise_for_status response); reflexivity.
Qed.

(** [_analyze_with_claude] by cases. *)
Lemma analyze_cases (R : runtime) (E : env) (v a d : value) (p : string)
    (hints : value) :
  _analyze_with_claude R E v a d p hints =
  match stdout_print R PrintAnalyzing with
  | inl e => ([], inl e)
  | inr _ =>
      match py_iter hints with
      | inl e => ([], inl e)
      | inr hint_list =>
          let request :=
            analysis_request (str_of R v) (str_of R a) (str_of R d) p
              (map (str_of R) hint_list) in
          ([MessagesCreate request],
           match analysed R E request with
           | inl e => print_then R (PrintAnalysisError e) (fallback e)
           | inr loc => inr loc
           end)
      end
  end.
Proof.
  unfold _analyze_with_claude. rewrite bind_print.
  destruct (stdout_print R PrintAnalyzing) as [e|[]]; [reflexivity|].
  rewrite bind_lift. destruct (py_iter hints) as [e|hint_list]; [reflexivity|].
  cbv zeta. rewrite try_except_print.
  unfold call_messages_create, analysed. rewrite bind_call.
  destruct (messages_create E _) as [e|message]; [reflexivity|].
  cbv beta iota delta [rbind]. unfold reply_object.
  rewrite bind_lift.
  destruct (py_index message 0) as [e|t0]; [reflexivity|]. cbv beta iota delta [rbind].
  rewrite bind_lift.
  destruct (strip_code_fence t0) as [e|t1]; [reflexivity|]. cbv beta iota delta [rbind].
  rewrite bind_lift.
  destruct (json_loads E (strip t1)) as [e|result]; [reflexivity|].
  unfold lift. destruct (spec_of_result R result); reflexivity.
Qed.

(** [discover_spec] by cases. *)
Lemma discover_cases (R : runtime) (E : env) (v a d hints : value) :
  discover_spec R E v a d hints =
  match stdout_print R (PrintDiscovering v a) with
  | inl e => ([], inl e)
  | inr _ =>
      match stdout_print R (PrintDocumentationURL d) with
      | inl e => ([], inl e)
      | inr _ =>
          bind (_fetch_documentation R E d)
            (fun page_content =>
               _analyze_with_claude R E v a d page_content (py_or hints (VList [])))
      end
  end.
Proof.
  unfold discover_spec. rewrite bind_print.
  destruct (stdout_print R (PrintDiscovering v a)) as [e|[]]; [reflexivity|].
  rewrite bind_print.
  destruct (stdout_print R (PrintDocumentationURL d)) as [e|[]]; [reflexivity|].
  destruct (_fetch_documentation R E d) as [t [e|page]]; [reflexivity|].
  now rewrite !bind_pair, bind_ret_r.
Qed.

(** [verify_spec_url] by cases. *)
Lemma verify_cases (R : runtime) (E : env) (url : value) :
  verify_spec_url R E url =
  match stdout_print R (PrintVerifying url) with
  | inl e => ([], print_then R (PrintVerifyError e) false)
  | inr _ =>
      match requests_head E (str_of R url) 10 true with
      | inl e =>
          ([RequestsHead (str_of R url) 10 true], print_then R (PrintVerifyError e) false)
      | inr response =>
          if (status_code response =? 200)%N then
            ([RequestsHead (str_of R url) 10 true; RequestsGet (str_of R url) 30],
             match requests_get E (str_of R url) 30 with
             | inl e => print_then R (PrintVerifyError e) false
             | inr content_response =>
                 if has_openapi (text content_response) then
                   match stdout_print R PrintValidSpec with
                   | inl e => print_then R (PrintVerifyError e) false
                   | inr _ => inr true
                   end
                 else not_a_spec R (status_code response)
             end)
          else ([RequestsHead (str_of R url) 10 true], not_a_spec R (status_code response))
      end
  end.
Proof.
  unfold verify_spec_url, not_a_spec. rewrite try_except_print, bind_print.
  destruct (stdout_print R (PrintVerifying url)) as [e|[]]; [reflexivity|].
  unfold call_head. rewrite bind_call.
  destruct (requests_head E (str_of R url) 10 true) as [e|response]; [reflexivity|].
  cbv zeta.
  destruct (status_code response =? 200)%N.
  - unfold call_get. rewrite bind_call.
    destruct (requests_get E (str_of R url) 30) as [e|cr]; [reflexivity|].
    destruct (has_openapi (text cr)); rewrite bind_print;
      destruct (stdout_print R _) as [e|[]]; reflexivity.
  - rewrite bind_print. destruct (stdout_print R _) as [e|[]]; reflexivity.
Qed.

(** [verify_spec_url] returns when the line of its [except] branch can be
    printed, after the probe whenever its first line was printed. *)
Lemma verify_returns_when_printing (R : runtime) (E : env) (url : value) :
  (forall e, stdout_print R (PrintVerifyError e) = inr tt) ->
  exists t b, verify_spec_url R E url = (t, inr b)
    /\ (stdout_print R (PrintVerifying url) = inr tt ->
        exists t', t = RequestsHead (str_of R url) 10 true :: t').
Proof.
  intros Herr. rewrite verify_cases. unfold not_a_spec, print_then.
  destruct (stdout_print R (PrintVerifying url)) as [e|[]].
  - rewrite Herr. eexists _, _. split; [reflexivity | discriminate].
  - destruct (requests_head E (str_of R url) 10 true) as [e|response].
    + rewrite Herr. eexists _, _. split; [reflexivity | now eexists].
    + destruct (status_code response =? 200)%N.
      * destruct (requests_get E (str_of R url) 30) as [e|cr].
        { rewrite Herr. eexists _, _. split; [reflexivity | now eexists]. }
        destruct (has_openapi (text cr)).
        { destruct (stdout_print R PrintValidSpec) as [e|[]]; rewrite ?Herr;
            (eexists _, _; split; [reflexivity | now eexists]). }
        destruct (stdout_print R (PrintNotASpec _)) as [e|[]]; rewrite ?Herr;
          (eexists _, _; split; [reflexivity | now eexists]).
      * destruct (stdout_print R (PrintNotASpec _)) as [e|[]]; rewrite ?Herr;
          (eexists _, _; split; [reflexivity | now eexists]).
Qed.

(** On a dict, [spec_of_result] by cases. *)
Lemma spec_of_result_cases (R : runtime) (items : list (string * value)) :
  spec_of_result R (VDict items) =
  (_ <~ stdout_print R PrintAnalysisComplete ;;
   _ <~ stdout_print R (PrintConfidence
                          (match lookup "confidence" items with
                           | Some c => c | None => VStr "unknown" end)) ;;
   preview <~ py_slice_to 100 (match lookup "reasoning" items with
                               | Some r => r | None => VStr "N/A" end) ;;
   _ <~ stdout_print R (PrintReasoning preview) ;;
   inr (mkSpecLocation
          (match lookup "download_url" items with Some x => x | None => VStr "" end)
          (match lookup "version" items with Some x => x | None => VNone end)
          (match lookup "format" items with Some x => x | None => VStr "yaml" end)
          (match lookup "versioning_strategy" items with
           | Some x => x | None => VStr "unknown" end)
          (match lookup "github_info" items with Some x => x | None => VNone end)
          (match lookup "confidence" items with Some x => x | None => VStr "low" end)
          (match lookup "reasoning" items with Some x => x | None => VStr "" end)))%res.
Proof. reflexivity. Qed.

(** Off a dict, the first line is printed and [get] raises. *)
Lemma spec_of_result_off_dict (R : runtime) (o : value) :
  (forall items, o <> VDict items) ->
  spec_of_result R o =
  (_ <~ stdout_print R PrintAnalysisComplete ;;
   inl (Exn "AttributeError" ("'" ++ type_name o ++ "' object has no attribute 'get'")))%res.
Proof.
  intros H. unfold spec_of_result.
  destruct o; try reflexivity. now elim (H items).
Qed.

Import Typed.

(** [_fetch_documentation] by cases. *)
Lemma fetch_eq (E : env) (u : string) :
  _fetch_documentation E u =
  ([RequestsGet u 30],
   inr (match requests_get E u 30 with
        | inl _ => ""
        | inr response =>
            match raise_for_status response with
            | inl _ => ""
            | inr _ => take 100000 (text response)
            end
        end)).
Proof.
  unfold _fetch_documentation. rewrite fetch_cases. cbn [stdout_print quiet str_of].
  unfold retrieved. f_equal.
  destruct (requests_get E u 30) as [e|response]; [reflexivity|].
  cbv beta iota delta [rbind]. destruct (raise_for_status response); reflexivity.
Qed.

(** [_analyze_with_claude] by cases. *)
Lemma analyze_eq (E : env) (v a d p : string) (h : list string) :
  _analyze_with_claude E v a d p h =
  ([MessagesCreate (analysis_request v a d p h)],
   inr (match messages_create E (analysis_request v a d p h) with
        | inl e => fallback e
        | inr message =>
            match rbind (reply_object E message) spec_of_result with
            | inl e => fallback e
            | inr loc => loc
            end
        end)).
Proof.
  unfold _analyze_with_claude. rewrite analyze_cases.
  cbn [stdout_print quiet str_of py_iter]. cbv zeta. rewrite map_str_of_VStr.
  unfold analysed. f_equal.
  destruct (messages_create E _) as [e|message]; [reflexivity|].
  cbv beta iota delta [rbind].
  destruct (reply_object E message) as [e|result]; [reflexivity|].
  unfold spec_of_result.
  destruct (agent_discovery.spec_of_result quiet result); reflexivity.
Qed.

(** [verify_spec_url] by cases. *)
Lemma verify_eq (E : env) (u : string) :
  verify_spec_url E u =
  match requests_head E u 10 true with
  | inl _ => ([RequestsHead u 10 true], inr false)
  | inr response =>
      if (status_code response =? 200)%N then
        ([RequestsHead u 10 true; RequestsGet u 30],
         inr (match requests_get E u 30 with
              | inl _ => false
              | inr content_response => has_openapi (text content_response)
              end))
      else ([RequestsHead u 10 true], inr false)
  end.
Proof.
  unfold verify_spec_url. rewrite verify_cases. cbn [stdout_print quiet str_of].
  destruct (requests_head E u 10 true) as [e|response]; [reflexivity|].
  destruct (status_code response =? 200)%N; [|reflexivity].
  destruct (requests_get E u 30) as [e|cr]; [reflexivity|].
  destruct (has_openapi (text cr)); reflexivity.
Qed.

(** On a dict, [spec_of_result] raises only in the slice of the preview. *)
Lemma spec_of_result_dict (items : list (string * value)) :
  spec_of_result (VDict items) =
  match py_slice_to 100 (match lookup "reasoning" items with
                         | Some r => r | None => VStr "N/A" end) with
  | inl e => inl e
  | inr _ =>
      inr (mkSpecLocation
             (match lookup "download_url" items with Some x => x | None => VStr "" end)
             (match lookup "version" items with Some x => x | None => VNone end)
             (match lookup "format" items with Some x => x | None => VStr "yaml" end)
             (match lookup "versioning_strategy" items with
              | Some x => x | None => VStr "unknown" end)
             (match lookup "github_info" items with Some x => x | None => VNone end)
             (match lookup "confidence" items with Some x => x | None => VStr "low" end)
             (match lookup "reasoning" items with Some x => x | None => VStr "" end))
  end.
Proof.
  unfold spec_of_result. rewrite spec_of_result_cases.
  cbn [stdout_print quiet]. cbv beta iota delta [rbind].
  destruct (py_slice_to 100 _); reflexivity.
Qed.

Lemma spec_of_result_not_dict (o : value) :
  (forall items, o <> VDict items) ->
  spec_of_result o =
  inl (Exn "AttributeError" ("'" ++ type_name o ++ "' object has no attribute 'get'")).
Proof.
  intros H. unfold spec_of_result. now rewrite (spec_of_result_off_dict quiet o H).
Qed.

End AgentFacts.
Import AgentFacts.

(* ===================================================================== *)
(** ** The code-fence removal *)
(* ===================================================================== *)

Module FenceFacts.
Import agent_discovery Spec.

Lemma cut_startswith (sep t : string) : cut sep (sep ++ t) = Some ("", t).
Proof.
  destruct (sep ++ t) as [|c s] eqn:Es.
  - rewrite cut_nil, <- Es, startswith_app, drop_app. reflexivity.
  - rewrite cut_cons, <- Es, startswith_app, drop_app. reflexivity.
Qed.

Lemma contains_false_cut {sep s : string} : contains sep s = false -> cut sep s = None.
Proof. unfold contains. now destruct (cut sep s). Qed.

Lemma contains_cons_false {sep : string} {c : ascii} {s : string} :
  contains sep (String c s) = false ->
  startswith sep (String c s) = false /\ contains sep s = false.
Proof.
  unfold contains. rewrite cut_cons.
  destruct (startswith sep (String c s)); [discriminate|].
  destruct (cut sep s) as [[? ?]|]; [discriminate|]. now split.
Qed.

Lemma endswith_char_cons_false {c x : ascii} {s : string} :
  endswith_char c (String x s) = false -> endswith_char c s = false.
Proof. destruct s; [reflexivity | exact (fun H => H)]. Qed.

(** A fence that starts inside [body ++ t] at its first character starts
    [body], unless [body] is a run of one or two backticks. *)
Lemma startswith_fence_app (c : ascii) (b t : string) :
  startswith "```" (String c b ++ t) = true ->
  startswith "```" (String c b) = true \/ endswith_char "`" (String c b) = true.
Proof.
  simpl. intros H. apply andb_prop in H as [H1 H].
  destruct b as [|c2 b]; [right; simpl; now rewrite Ascii.eqb_sym|].
  simpl in H. apply andb_prop in H as [H2 H].
  destruct b as [|c3 b]; [right; simpl; now rewrite Ascii.eqb_sym|].
  simpl in H. apply andb_prop in H as [H3 _].
  left. simpl. now rewrite H1, H2, H3.
Qed.

(** The closing fence is the first fence of [body ++ fence]. *)
Lemma cut_closing_fence (body r : string) :
  contains "```" body = false -> endswith_char "`" body = false ->
  cut "```" (body ++ "```" ++ r) = Some (body, r).
Proof.
  induction body as [|c b IH]; intros Hc He.
  - reflexivity.
  - change (String c b ++ "```" ++ r) with (String c (b ++ "```" ++ r)).
    rewrite cut_cons.
    destruct (contains_cons_false Hc) as [Hs Hc'].
    destruct (startswith "```" (String c (b ++ "```" ++ r))) eqn:P.
    + destruct (startswith_fence_app c b _ P) as [H|H]; congruence.
    + now rewrite (IH Hc' (endswith_char_cons_false He)).
Qed.

Lemma cut_json_fence_none (body : string) :
  contains "```" body = false -> endswith_char "`" body = false ->
  cut "```json" (body ++ "```") = None.
Proof.
  intros Hc He. destruct (cut "```json" (body ++ "```")) as [[b' a']|] eqn:C; [|reflexivity].
  exfalso. pose proof (cut_sound C) as Eq.
  pose proof (cut_length C) as Len. rewrite length_app in Len. simpl in Len.
  destruct (cut_leftmost "```" b' ("json" ++ a')) as (b & a & C' & L).
  change (b' ++ "```" ++ "json" ++ a') with (b' ++ "```json" ++ a') in C'.
  rewrite <- Eq in C'.
  pose proof (cut_closing_fence body "" Hc He) as A.
  change (body ++ "```" ++ "") with (body ++ "```") in A.
  rewrite A in C'. injection C' as <- _. lia.
Qed.

Lemma py_index_0 {A} (x : A) (l : list A) : py_index (x :: l) 0 = inr x.
Proof. reflexivity. Qed.

Lemma py_index_1 {A} (x y : A) (l : list A) : py_index (x :: y :: l) 1 = inr y.
Proof. reflexivity. Qed.

Lemma fence_nonempty : "```" <> "".
Proof. discriminate. Qed.

Lemma json_fence_nonempty : "```json" <> "".
Proof. discriminate. Qed.

(** The fence removal never fails. *)
Lemma strip_code_fence_total (t : string) : exists t', strip_code_fence t = inr t'.
Proof.
  unfold strip_code_fence.
  assert (G : forall sep s, sep <> "" -> contains sep s = true ->
            exists x, (a <~ py_index (split sep s) 1 ;; py_index (split "```" a) 0)%res
                      = inr x).
  { intros sep s Hsep H. unfold contains in H.
    destruct (cut sep s) as [[b a]|] eqn:C; [|discriminate].
    rewrite (split_cut Hsep C).
    destruct (cut sep a) as [[b1 a1]|] eqn:C1.
    - rewrite (split_cut Hsep C1), py_index_1. simpl rbind.
      destruct (cut "```" b1) as [[b2 a2]|] eqn:C2.
      + rewrite (split_cut fence_nonempty C2). now eexists.
      + rewrite (split_none _ _ C2). now eexists.
    - rewrite (split_none _ _ C1), py_index_1. simpl rbind.
      destruct (cut "```" a) as [[b2 a2]|] eqn:C2.
      + rewrite (split_cut fence_nonempty C2). now eexists.
      + rewrite (split_none _ _ C2). now eexists. }
  destruct (contains "```json" t) eqn:H1; [exact (G _ _ json_fence_nonempty H1)|].
  destruct (contains "```" t) eqn:H2; [exact (G _ _ fence_nonempty H2)|].
  now eexists.
Qed.

(** Text without a fence is left as it is. *)
Lemma strip_code_fence_plain (body : string) :
  contains "```" body = false -> strip_code_fence body = inr body.
Proof.
  intros Hc. unfold strip_code_fence.
  destruct (contains "```json" body) eqn:H.
  - assert (contains "```" body = true) by (apply (contains_app_sep "```" "```json"); [reflexivity | exact H]).
    congruence.
  - now rewrite Hc.
Qed.

(** A [```json] fence around [body] is removed. *)
Lemma strip_code_fence_json (body : string) :
  contains "```" body = false -> endswith_char "`" body = false ->
  strip_code_fence ("```json" ++ body ++ "```") = inr body.
Proof.
  intros Hc He. unfold strip_code_fence.
  assert (C : cut "```json" ("```json" ++ body ++ "```") = Some ("", body ++ "```"))
    by apply cut_startswith.
  unfold contains at 1. rewrite C.
  rewrite (split_cut json_fence_nonempty C).
  rewrite (split_none _ _ (cut_json_fence_none body Hc He)), py_index_1. simpl rbind.
  pose proof (cut_closing_fence body "" Hc He) as A.
  change (body ++ "```" ++ "") with (body ++ "```") in A.
  now rewrite (split_cut fence_nonempty A), py_index_0.
Qed.

(** A bare fence around [body] is removed. *)
Lemma strip_code_fence_bare (body : string) :
  contains "```" body = false -> endswith_char "`" body = false ->
  contains "```json" ("```" ++ body ++ "```") = false ->
  strip_code_fence ("```" ++ body ++ "```") = inr body.
Proof.
  intros Hc He Hj. unfold strip_code_fence. rewrite Hj.
  assert (C : cut "```" ("```" ++ body ++ "```") = Some ("", body ++ "```"))
    by apply cut_startswith.
  unfold contains at 1. rewrite C.
  rewrite (split_cut fence_nonempty C).
  pose proof (cut_closing_fence body "" Hc He) as A.
  change (body ++ "```" ++ "") with (body ++ "```") in A.
  rewrite (split_cut fence_nonempty A), py_index_1. simpl rbind.
  now rewrite (split_none _ _ (contains_false_cut Hc)), py_index_0.
Qed.

End FenceFacts.
Import FenceFacts.

(** From here on [_fetch_documentation], [_analyze_with_claude] and
    [verify_spec_url] without a qualifier are those of [Typed]; the
    methods on arguments of any type and any standard output are written
    [agent_discovery._fetch_documentation] and so on. *)
Import agent_discovery Typed Spec Samples.

(* ===================================================================== *)
(** ** The analysis engine *)
(* ===================================================================== *)

Section Analysis.

Variable E : env.
Variables vendor api_name documentation_url page_content : string.
Variable hints : list string.

Local Abbreviation request :=
  (analysis_request vendor api_name documentation_url page_content hints).
Local Abbreviation analyze :=
  (_analyze_with_claude E vendor api_name documentation_url page_content hints).

(** What [analyze] returns when the reply parses to a dict. *)
Lemma analyze_dict (message : list string) (items : list (string * value)) :
  messages_create E request = inr message ->
  reply_object E message = inr (VDict items) ->
  snd analyze =
  inr (match spec_of_result (VDict items) with
       | inl e => fallback e
       | inr loc => loc
       end).
Proof.
  intros Hm Hr. rewrite analyze_eq, Hm, Hr. reflexivity.
Qed.

(** C2 (as amended): the github_info of the record [analyze] returns is
    None, or it is the value of the github_info key of the object the
    reply parsed to, as the service gave it. *)
Theorem github_info_is_passed_through :
  exists loc, snd analyze = inr loc
    /\ (github_info loc = VNone
        \/ exists message items,
             messages_create E request = inr message
             /\ reply_object E message = inr (VDict items)
             /\ lookup "github_info" items = Some (github_info loc)).
Proof.
  rewrite analyze_eq. eexists; split; [reflexivity|].
  destruct (messages_create E request) as [e|message] eqn:Hm; [now left|].
  destruct (reply_object E message) as [e|result] eqn:Hr; [now left|].
  simpl rbind.
  destruct result as [| | | | |items];
    try (rewrite spec_of_result_not_dict by discriminate; now left).
  rewrite spec_of_result_dict.
  destruct (py_slice_to 100 _); [now left|]. simpl.
  destruct (lookup "github_info" items) as [g|] eqn:Hg; [|now left].
  right. now exists message, items.
Qed.

End Analysis.

(** The engine on arguments of any type and any standard output. *)
Section AnalysisAtLarge.

Variable R : runtime.
Variable E : env.
Variables vendor api_name documentation_url : value.
Variable page_content : string.
Variable hints : value.
Variable hint_list : list value.

Local Abbreviation request :=
  (analysis_request (str_of R vendor) (str_of R api_name) (str_of R documentation_url)
     page_content (map (str_of R) hint_list)).
Local Abbreviation analyze :=
  (agent_discovery._analyze_with_claude R E vendor api_name documentation_url
     page_content hints).

(** What [analyze] does once its first line is printed and [hints] has
    been gone through. *)
Lemma analyze_started :
  stdout_print R PrintAnalyzing = inr tt ->
  py_iter hints = inr hint_list ->
  analyze =
  ([MessagesCreate request],
   match analysed R E request with
   | inl e => print_then R (PrintAnalysisError e) (fallback e)
   | inr loc => inr loc
   end).
Proof. intros Hs Hh. now rewrite analyze_cases, Hs, Hh. Qed.



(** C5 (as amended): when the reply of the service holds no code fence,
    decodes to a JSON object with all seven keys, its reasoning is a
    string or a list, and standard output accepts the first line and the
    three progress lines (which show the confidence and the first hundred
    items of the reasoning), [analyze] returns the record whose fields are
    the decoded values. *)
Theorem well_formed_reply_round_trip
    (text : string) (rest : list string) (items : list (string * value))
    (loc : SpecLocation) :
  stdout_print R PrintAnalyzing = inr tt ->
  py_iter hints = inr hint_list ->
  messages_create E request = inr (text :: rest) ->
  contains "```" text = false ->
  json_loads E (strip text) = inr (VDict items) ->
  record_of items = Some loc ->
  ((exists s, reasoning loc = VStr s) \/ (exists l, reasoning loc = VList l)) ->
  stdout_print R PrintAnalysisComplete = inr tt ->
  stdout_print R (PrintConfidence (confidence loc)) = inr tt ->
  (forall preview, py_slice_to 100 (reasoning loc) = inr preview ->
                   stdout_print R (PrintReasoning preview) = inr tt) ->
  analyze = ([MessagesCreate request], inr loc).
Proof.
  intros Hs Hh Hm Hc Hj Hrec Hreason Hdone Hconf Hprev.
  assert (Hr : reply_object E (text :: rest) = inr (VDict items)).
  { unfold reply_object. rewrite py_index_0. cbv beta iota delta [rbind].
    rewrite (strip_code_fence_plain text Hc). exact Hj. }
  rewrite (analyze_started Hs Hh). unfold analysed. rewrite Hm.
  cbv beta iota delta [rbind]. rewrite Hr, spec_of_result_cases, Hdone.
  cbv beta iota delta [rbind].
  unfold record_of in Hrec.
  destruct (lookup "download_url" items); [|discriminate].
  destruct (lookup "version" items); [|discriminate].
  destruct (lookup "format" items); [|discriminate].
  destruct (lookup "versioning_strategy" items); [|discriminate].
  destruct (lookup "github_info" items); [|discriminate].
  destruct (lookup "confidence" items) as [c|]; [|discriminate].
  destruct (lookup "reasoning" items) as [r|]; [|discriminate].
  injection Hrec as <-. cbn [reasoning confidence] in *. rewrite Hconf.
  destruct Hreason as [(x & ->)|(l & ->)]; cbn [py_slice_to];
    now rewrite (Hprev _ eq_refl).
Qed.


End AnalysisAtLarge.

Lemma reply_object_cons (E : env) (t : string) (rest : list string) :
  reply_object E (t :: rest)
  = rbind (strip_code_fence t) (fun t' => json_loads E (strip t')).
Proof. reflexivity. Qed.

(** C7 (as amended): when the text between the fences holds no fence and
    does not end with a backtick, a reply that wraps it in a json fence
    is analysed exactly as the reply that gives it bare; and so is a
    reply that wraps it in a plain fence, provided that reply holds no
    json fence. *)
Theorem fenced_reply_same_as_plain
    (E : env) (vendor api_name documentation_url page_content : string)
    (hints : list string) (body : string) (rest : list string) :
  contains "```" body = false ->
  endswith_char "`" body = false ->
  _analyze_with_claude (with_reply E (("```json" ++ body ++ "```") :: rest))
    vendor api_name documentation_url page_content hints
  = _analyze_with_claude (with_reply E (body :: rest))
      vendor api_name documentation_url page_content hints
  /\ (contains "```json" ("```" ++ body ++ "```") = false ->
      _analyze_with_claude (with_reply E (("```" ++ body ++ "```") :: rest))
        vendor api_name documentation_url page_content hints
      = _analyze_with_claude (with_reply E (body :: rest))
          vendor api_name documentation_url page_content hints).
Proof.
  intros Hc He. rewrite !analyze_eq.
  cbv beta iota delta [with_reply messages_create].
  rewrite !reply_object_cons. cbv beta iota delta [json_loads].
  rewrite (strip_code_fence_json body Hc He), (strip_code_fence_plain body Hc).
  split; [reflexivity|].
  intros Hj. now rewrite (strip_code_fence_bare body Hc He Hj).
Qed.

(* ===================================================================== *)
(** ** The fetcher and the verifier *)
(* ===================================================================== *)

Lemma raise_for_status_eq (r : Response) :
  raise_for_status r =
  if ((400 <=? status_code r) && (status_code r <? 600))%N
  then raise_for_status r else inr tt.
Proof.
  unfold raise_for_status.
  destruct (N.leb_spec 400 (status_code r)), (N.ltb_spec (status_code r) 500),
    (N.leb_spec 500 (status_code r)), (N.ltb_spec (status_code r) 600);
    simpl; try reflexivity; lia.
Qed.

Lemma raise_for_status_raises (r : Response) :
  ((400 <=? status_code r) && (status_code r <? 600))%N = true ->
  exists e, raise_for_status r = inl e.
Proof.
  unfold raise_for_status. intros H.
  destruct (N.leb_spec 400 (status_code r)), (N.ltb_spec (status_code r) 500),
    (N.leb_spec 500 (status_code r)), (N.ltb_spec (status_code r) 600);
    simpl in *; try discriminate; try lia; now eexists.
Qed.

Section Network.

Variable E : env.
Variable u : string.




End Network.

(** C9 (as amended): the four-keyword check is the two-keyword check or
    one of the two quoted keywords; the two-keyword check implies it. *)
Theorem keyword_check_decomposition (content : string) :
  has_openapi content
  = (contains (q "openapi" ++ ":") (lower content)
     || contains "'openapi':" (lower content)
     || two_keyword_check content)
  /\ (two_keyword_check content = true -> has_openapi content = true).
Proof.
  assert (Eq : has_openapi content
               = (contains (q "openapi" ++ ":") (lower content)
                  || contains "'openapi':" (lower content)
                  || two_keyword_check content)).
  { unfold has_openapi, two_keyword_check, keywords. simpl existsb.
    rewrite orb_false_r, !orb_assoc. reflexivity. }
  split; [exact Eq|].
  intros H. rewrite Eq, H. now rewrite orb_true_r.
Qed.

(* ===================================================================== *)
(** ** The front door *)
(* ===================================================================== *)

(** C8 (as amended): a request body that is a JSON object without one of
    vendor, api_name, documentation_url gets status 400 and the error
    [Missing required field: ] followed by the first of the three, in that
    order, that the body lacks; no call leaves the process, whatever the
    libraries and standard output would do. *)
Theorem missing_field_is_client_error
    (R : runtime) (E : env) (items : list (string * value)) :
  (exists field, In field ["vendor"; "api_name"; "documentation_url"]
                 /\ lookup field items = None) ->
  let field :=
    match lookup "vendor" items, lookup "api_name" items with
    | None, _ => "vendor"
    | Some _, None => "api_name"
    | Some _, Some _ => "documentation_url"
    end in
  lookup field items = None
  /\ agent_api.discover_spec R E (inr (VDict items))
     = ([], inr (VDict [("error", VStr ("Missing required field: " ++ field))],
                 400%N)).
Proof.
  intros Hmiss.
  destruct (lookup "vendor" items) as [x|] eqn:Hv.
  2:{ cbv zeta. split; [exact Hv|].
      unfold agent_api.discover_spec. rewrite !bind_lift. simpl.
      rewrite Hv. reflexivity. }
  destruct (lookup "api_name" items) as [y|] eqn:Ha.
  2:{ cbv zeta. split; [exact Ha|].
      unfold agent_api.discover_spec. rewrite !bind_lift. simpl.
      rewrite Hv, Ha. reflexivity. }
  destruct (lookup "documentation_url" items) as [z|] eqn:Hd.
  2:{ cbv zeta. split; [exact Hd|].
      unfold agent_api.discover_spec. rewrite !bind_lift. simpl.
      rewrite Hv, Ha, Hd. reflexivity. }
  exfalso. destruct Hmiss as (f & Hin & Hf).
  simpl in Hin. destruct Hin as [<-|[<-|[<-|[]]]]; congruence.
Qed.

(* ===================================================================== *)
(** ** Concrete runs *)
(* ===================================================================== *)



(** C2, as stated, fails: the reply [{"github_info": {}}] gives a record
    whose github_info is present and carries no owner, repo or path. *)
Lemma empty_github_info_is_returned :
  exists loc,
    snd (analyze_sample (answering empty_github_reply)) = inr loc
    /\ github_info loc = VDict []
    /\ github_info loc <> VNone
    /\ carries_triple (github_info loc) = false.
Proof.
  eexists. split; [vm_compute; reflexivity|]. simpl.
  split; [reflexivity|]. split; [discriminate | reflexivity].
Qed.



(** A standard output that cannot encode the confidence of the reply: the
    progress line raises inside the [try] and the reply is discarded. *)
Example refused_progress_line_discards_reply :
  snd (agent_discovery._analyze_with_claude
         (refusing (fun line => match line with PrintConfidence _ => true | _ => false end)
            (Exn "UnicodeEncodeError" "surrogates not allowed"))
         (answering partial_reply)
         (VStr "acme") (VStr "widgets") (VStr docs_url) "<html>docs</html>" (VList []))
  = inr (fallback (Exn "UnicodeEncodeError" "surrogates not allowed")).
Proof. vm_compute; reflexivity. Qed.



(** C5, as stated, fails on two well-formed replies with all seven keys:
    one whose reasoning quotes a fenced snippet (the text between the
    fences, an empty object, is decoded instead), one whose reasoning is
    null (the preview slice raises). *)
Lemma seven_field_reply_not_round_tripped :
  (PyJson.loads (full_reply (q "see ```{}``` in the docs"))
   = inr (VDict (full_items (VStr "see ```{}``` in the docs")))
   /\ exists loc,
        record_of (full_items (VStr "see ```{}``` in the docs")) = Some loc
        /\ snd (analyze_sample (answering (full_reply (q "see ```{}``` in the docs"))))
           = inr defaults
        /\ defaults <> loc)
  /\ (PyJson.loads (full_reply "null") = inr (VDict (full_items VNone))
      /\ exists loc,
           record_of (full_items VNone) = Some loc
           /\ snd (analyze_sample (answering (full_reply "null")))
              = inr (fallback (Exn "TypeError" "'NoneType' object is not subscriptable"))
           /\ fallback (Exn "TypeError" "'NoneType' object is not subscriptable") <> loc).
Proof.
  split; (split; [vm_compute; reflexivity|]);
    (eexists; split; [reflexivity|]; split; [vm_compute; reflexivity | discriminate]).
Qed.

(** A plain reply with all seven keys. *)
Lemma well_formed_reply_round_trip_witness :
  snd (agent_discovery._analyze_with_claude quiet
         (answering (full_reply (q "linked from the docs")))
         (VStr "acme") (VStr "widgets") (VStr docs_url) "<html>docs</html>" (VList []))
  = inr (mkSpecLocation (VStr spec_url) VNone (VStr "yaml") (VStr "in-spec")
           (VDict [("owner", VStr "acme"); ("repo", VStr "widgets-oai");
                   ("path", VStr "openapi.yaml")])
           (VStr "high") (VStr "linked from the docs")).
Proof.
  rewrite (well_formed_reply_round_trip quiet
             (answering (full_reply (q "linked from the docs")))
             (VStr "acme") (VStr "widgets") (VStr docs_url) "<html>docs</html>"
             (VList []) []
             (full_reply (q "linked from the docs")) []
             (full_items (VStr "linked from the docs"))
             (mkSpecLocation (VStr spec_url) VNone (VStr "yaml") (VStr "in-spec")
                (VDict [("owner", VStr "acme"); ("repo", VStr "widgets-oai");
                        ("path", VStr "openapi.yaml")])
                (VStr "high") (VStr "linked from the docs"))).
  - reflexivity.
  - reflexivity.
  - reflexivity.
  - reflexivity.
  - vm_compute; reflexivity.
  - vm_compute; reflexivity.
  - reflexivity.
  - left. now eexists.
  - reflexivity.
  - reflexivity.
  - intros preview _. reflexivity.
Defined.



(** C7, as stated, fails: a JSON object whose string quotes a fenced
    snippet is analysed differently inside a json fence and bare. *)
Lemma fenced_reply_differs_from_plain :
  PyJson.loads ("{" ++ field "reasoning" (q "see ```{}``` in the docs") ++ "}")
  = inr (VDict [("reasoning", VStr "see ```{}``` in the docs")])
  /\ snd (analyze_sample
            (answering ("```json" ++ nl ++ "{"
                        ++ field "reasoning" (q "see ```{}``` in the docs") ++ "}"
                        ++ nl ++ "```")))
     <> snd (analyze_sample
               (answering ("{" ++ field "reasoning" (q "see ```{}``` in the docs")
                           ++ "}"))).
Proof.
  split; [vm_compute; reflexivity|].
  vm_compute. discriminate.
Qed.

(** The seven-key reply on lines of its own between the fences. *)
Lemma fenced_reply_same_as_plain_witness :
  contains "```" (nl ++ full_reply (q "ok") ++ nl) = false
  /\ endswith_char "`" (nl ++ full_reply (q "ok") ++ nl) = false
  /\ contains "```json" ("```" ++ (nl ++ full_reply (q "ok") ++ nl) ++ "```") = false
  /\ analyze_sample (with_reply (answering "")
                       [("```json" ++ (nl ++ full_reply (q "ok") ++ nl) ++ "```")])
     = analyze_sample (with_reply (answering "") [nl ++ full_reply (q "ok") ++ nl])
  /\ analyze_sample (with_reply (answering "")
                       [("```" ++ (nl ++ full_reply (q "ok") ++ nl) ++ "```")])
     = analyze_sample (with_reply (answering "") [nl ++ full_reply (q "ok") ++ nl]).
Proof.
  assert (Hc : contains "```" (nl ++ full_reply (q "ok") ++ nl) = false)
    by (vm_compute; reflexivity).
  assert (He : endswith_char "`" (nl ++ full_reply (q "ok") ++ nl) = false)
    by (vm_compute; reflexivity).
  assert (Hj : contains "```json" ("```" ++ (nl ++ full_reply (q "ok") ++ nl) ++ "```")
               = false) by (vm_compute; reflexivity).
  destruct (fenced_reply_same_as_plain (answering "")
              "acme" "widgets" docs_url "<html>docs</html>" []
              (nl ++ full_reply (q "ok") ++ nl) [] Hc He) as [H1 H2].
  split; [exact Hc|]. split; [exact He|]. split; [exact Hj|].
  split; [exact H1 | exact (H2 Hj)].
Defined.

(** C8, as stated, fails: the body [null] lacks the three fields, and the
    membership test of the validation raises; the reply is the 500 of the
    [except] branch, not a client error. *)
Lemma null_body_is_server_error :
  agent_api.discover_spec quiet (answering "") (inr VNone)
  = ([], inr (VDict [("error", VStr "argument of type 'NoneType' is not iterable")],
              500%N))
  /\ success_status 500 = false /\ 500%N <> 400%N.
Proof. split; [vm_compute; reflexivity|]. split; [reflexivity | discriminate]. Qed.

(** A request body without documentation_url. *)
Lemma missing_field_is_client_error_witness :
  agent_api.discover_spec quiet (answering "")
    (inr (VDict [("vendor", VStr "acme"); ("api_name", VStr "widgets")]))
  = ([], inr (VDict [("error", VStr "Missing required field: documentation_url")],
              400%N)).
Proof.
  apply (missing_field_is_client_error quiet (answering "")
           [("vendor", VStr "acme"); ("api_name", VStr "widgets")]).
  exists "documentation_url". split; [right; right; now left | reflexivity].
Defined.

(** C9, as stated, fails: the quoted keyword does not hold the unquoted
    one (a quote stands between the word and the colon), and a JSON
    document passes the four-keyword check only. *)
Lemma quoted_keyword_not_covered :
  contains "openapi:" (q "openapi" ++ ":") = false
  /\ has_openapi ("{" ++ q "openapi" ++ ": " ++ q "3.0.0" ++ "}") = true
  /\ two_keyword_check ("{" ++ q "openapi" ++ ": " ++ q "3.0.0" ++ "}") = false.
Proof. repeat split; vm_compute; reflexivity. Qed.

(** A YAML body of a Swagger 2.0 document. *)
Lemma keyword_check_decomposition_witness :
  two_keyword_check "Swagger: 2.0" = true /\ has_openapi "Swagger: 2.0" = true.
Proof.
  assert (H : two_keyword_check "Swagger: 2.0" = true) by (vm_compute; reflexivity).
  split; [exact H|].
  exact (proj2 (keyword_check_decomposition "Swagger: 2.0") H).
Defined.


(** The scenario of the design notes: the documentation page is served,
    the service names the raw file with high confidence, and the file
    holds an OpenAPI document. *)
Example end_to_end_scenario :
  agent_discovery.discover_spec quiet (answering (full_reply (q "linked from the docs")))
    (VStr "acme") (VStr "widgets") (VStr docs_url) VNone
  = ([RequestsGet docs_url 30;
      MessagesCreate (analysis_request "acme" "widgets" docs_url "<html>docs</html>" [])],
     inr (mkSpecLocation (VStr spec_url) VNone (VStr "yaml") (VStr "in-spec")
            (VDict [("owner", VStr "acme"); ("repo", VStr "widgets-oai");
                    ("path", VStr "openapi.yaml")])
            (VStr "high") (VStr "linked from the docs")))
  /\ snd (verify_spec_url
            (stub (ok_response 200 "openapi: 3.0.0") (ok_response 200 "")
               (inl unreachable))
            spec_url)
     = inr true.
Proof. split; vm_compute; reflexivity. Qed.

(** The three verifications of the design notes: a JSON document, a
    missing page, a page that is no specification. *)
Example verify_examples :
  snd (verify_spec_url
         (stub (ok_response 200 ("{" ++ q "openapi" ++ ": " ++ q "3.0.0" ++ "}"))
            (ok_response 200 "") (inl unreachable))
         spec_url) = inr true
  /\ snd (verify_spec_url
            (stub (ok_response 404 "") (ok_response 404 "") (inl unreachable))
            spec_url) = inr false
  /\ snd (verify_spec_url
            (stub (ok_response 200 "<html>not a spec</html>") (ok_response 200 "")
               (inl unreachable))
            spec_url) = inr false.
Proof. repeat split; vm_compute; reflexivity. Qed.

(* ===================================================================== *)
(** ** Beyond the claims *)
(* ===================================================================== *)

Import SpecMore SamplesMore practical_examples.

(* ===================================================================== *)
(** ** More on the code-fence removal *)
(* ===================================================================== *)

Module FenceMore.

(** Two ways to split one string: the shorter head is a prefix of the
    longer one. *)
Lemma app_eq_app (a b c d : string) :
  a ++ b = c ++ d -> String.length a <= String.length c ->
  exists k, c = a ++ k /\ b = k ++ d.
Proof.
  revert c. induction a as [|x a IH]; intros c H L.
  - exists c. split; [reflexivity | exact H].
  - destruct c as [|y c]; [simpl in L; lia|].
    simpl in H. injection H as -> H. simpl in L.
    destruct (IH c H ltac:(lia)) as (k & -> & ->). now exists k.
Qed.

(** What [cut] leaves before the separator does not hold it. *)
Lemma cut_before_clean {sep s b a : string} :
  sep <> "" -> cut sep s = Some (b, a) -> contains sep b = false.
Proof.
  intros Hsep C. destruct (contains sep b) eqn:H; [|reflexivity]. exfalso.
  apply contains_iff in H as (x & y & ->).
  pose proof (cut_sound C) as Eq. rewrite !app_assoc in Eq.
  destruct (cut_leftmost sep x (y ++ sep ++ a)) as (b' & a' & C' & L).
  rewrite <- Eq, C in C'. injection C' as <- _.
  rewrite !length_app in L. pose proof (sep_length Hsep). lia.
Qed.

(** The first piece of a split does not hold the separator. *)
Lemma split_head_clean (sep s : string) :
  sep <> "" ->
  exists h rest, split sep s = h :: rest /\ contains sep h = false.
Proof.
  intros Hsep. destruct (cut sep s) as [[b a]|] eqn:C.
  - exists b, (split sep a). split; [exact (split_cut Hsep C)|].
    exact (cut_before_clean Hsep C).
  - exists s, []. split; [exact (split_none _ _ C)|].
    unfold contains. now rewrite C.
Qed.

(** A json fence after text without a fence is the first json fence. *)
Lemma cut_json_fence_after_prose (p x : string) :
  contains "```" p = false ->
  cut "```json" (p ++ "```json" ++ x) = Some (p, x).
Proof.
  induction p as [|c p IH]; intros Hc.
  - exact (cut_startswith "```json" x).
  - change (String c p ++ "```json" ++ x) with (String c (p ++ "```json" ++ x)).
    rewrite cut_cons.
    destruct (contains_cons_false Hc) as [Hs Hc'].
    destruct (startswith "```json" (String c (p ++ "```json" ++ x))) eqn:P.
    + exfalso. simpl in P. apply andb_prop in P as [P1 P].
      destruct p as [|c2 p]; [simpl in P; discriminate|].
      simpl in P. apply andb_prop in P as [P2 P].
      destruct p as [|c3 p]; [simpl in P; discriminate|].
      simpl in P. apply andb_prop in P as [P3 _].
      simpl in Hs. now rewrite P1, P2, P3 in Hs.
    + now rewrite (IH Hc').
Qed.

End FenceMore.
Import FenceMore.

(** X1: the fence removal never raises (the pieces it indexes after a
    split are there whenever the [in] test that guards the split held);
    what it returns holds no fence, so removing fences again changes
    nothing. *)
Theorem fence_removal_total_and_clean (response_text : string) :
  exists t, strip_code_fence response_text = inr t
            /\ contains "```" t = false
            /\ strip_code_fence t = inr t.
Proof.
  destruct (strip_code_fence_total response_text) as (t & H).
  exists t. split; [exact H|].
  assert (Hc : contains "```" t = false).
  { unfold strip_code_fence in H.
    assert (G : forall l, (a <~ py_index l 1 ;; py_index (split "```" a) 0)%res = inr t ->
                          contains "```" t = false).
    { intros l G. destruct (py_index l 1) as [e|a]; [discriminate|].
      cbv beta iota delta [rbind] in G.
      destruct (split_head_clean "```" a fence_nonempty) as (h & rest & Hs & Hh).
      rewrite Hs, py_index_0 in G. now injection G as <-. }
    destruct (contains "```json" response_text); [exact (G _ H)|].
    destruct (contains "```" response_text) eqn:Hf; [exact (G _ H)|].
    now injection H as <-. }
  split; [exact Hc | exact (strip_code_fence_plain t Hc)].
Qed.

(** X2: a json fence with text around it: when the text before the fence
    and the text inside it hold no fence, the inside does not end with a
    backtick and what follows the closing fence does not start with one,
    the fence removal returns the inside, whatever else follows. *)
Theorem fence_removal_ignores_surrounding_text (before body after : string) :
  contains "```" before = false ->
  contains "```" body = false ->
  endswith_char "`" body = false ->
  startswith "`" after = false ->
  strip_code_fence (before ++ "```json" ++ body ++ "```" ++ after) = inr body.
Proof.
  intros Hp Hc He Ha. unfold strip_code_fence.
  pose proof (cut_json_fence_after_prose before (body ++ "```" ++ after) Hp) as C.
  unfold contains at 1. rewrite C, (split_cut json_fence_nonempty C).
  pose proof (cut_closing_fence body after Hc He) as A.
  destruct (cut "```json" (body ++ "```" ++ after)) as [[b1 a1]|] eqn:C1.
  - rewrite (split_cut json_fence_nonempty C1), py_index_1. cbv beta iota delta [rbind].
    pose proof (cut_sound C1) as Eq.
    destruct (cut_leftmost "```" b1 ("json" ++ a1)) as (b & a & C' & L).
    change (b1 ++ "```" ++ "json" ++ a1) with (b1 ++ "```json" ++ a1) in C'.
    rewrite <- Eq, A in C'. injection C' as <- <-.
    destruct (app_eq_app body ("```" ++ after) b1 ("```json" ++ a1) Eq L) as (k & -> & Hk).
    destruct k as [|k1 [|k2 [|k3 k]]].
    + rewrite app_empty_r.
      now rewrite (split_none _ _ (contains_false_cut Hc)), py_index_0.
    + exfalso. simpl in Hk. inversion Hk. subst. discriminate.
    + exfalso. simpl in Hk. inversion Hk. subst. discriminate.
    + simpl in Hk. inversion Hk. subst.
      pose proof (cut_closing_fence body k Hc He) as A'.
      pose proof (split_cut fence_nonempty A') as S'.
      simpl append in S'. simpl append. now rewrite S', py_index_0.
  - rewrite (split_none _ _ C1), py_index_1. cbv beta iota delta [rbind].
    now rewrite (split_cut fence_nonempty A), py_index_0.
Qed.

(* ===================================================================== *)
(** ** More on the analysis engine and on discovery *)
(* ===================================================================== *)

Module AnalysisMore.

Lemma take_take (n m : N) (s : string) : (n <= m)%N -> take n (take m s) = take n s.
Proof.
  revert n m. induction s as [|c s IH]; intros n m L; simpl; [reflexivity|].
  destruct (N.eqb_spec m 0).
  - subst m. assert (n = 0%N) by lia. subst n. reflexivity.
  - simpl. destruct (N.eqb_spec n 0); [reflexivity|].
    rewrite IH; [reflexivity | lia].
Qed.

(** The request depends on the first 50,000 characters of the page only. *)
Lemma analysis_request_page (v a d p p' : string) (h : list string) :
  take 50000 p = take 50000 p' ->
  analysis_request v a d p h = analysis_request v a d p' h.
Proof. intros H. unfold analysis_request, user_prompt. now rewrite H. Qed.

Lemma analyze_page (E : env) (v a d p p' : string) (h : list string) :
  take 50000 p = take 50000 p' ->
  _analyze_with_claude E v a d p h = _analyze_with_claude E v a d p' h.
Proof. intros H. rewrite !analyze_eq. now rewrite (analysis_request_page v a d _ _ h H). Qed.

(** The page the analysis is shown is the first 50,000 characters of
    what was retrieved. *)
Lemma take_retrieved (E : env) (u : string) :
  take 50000 (match retrieved E u with inl _ => "" | inr page => page end)
  = take 50000
      (match requests_get E u 30 with
       | inl _ => ""
       | inr response =>
           if ((400 <=? status_code response) && (status_code response <? 600))%N
           then "" else take 50000 (text response)
       end).
Proof.
  unfold retrieved. destruct (requests_get E u 30) as [e|r]; [reflexivity|].
  cbv beta iota delta [rbind]. rewrite raise_for_status_eq.
  destruct ((400 <=? status_code r) && (status_code r <? 600))%N eqn:B.
  - destruct (raise_for_status_raises r B) as (e & ->). reflexivity.
  - rewrite (take_take 50000 100000) by lia.
    now rewrite (take_take 50000 50000) by lia.
Qed.

(** [discover_spec] on a standard output that accepts every line. *)
Lemma discover_accepting (R : runtime) (E : env) (v a d hints : value) :
  accepting R ->
  agent_discovery.discover_spec R E v a d hints =
  let page_content :=
    match retrieved E (str_of R d) with inl _ => "" | inr page => page end in
  match py_iter (py_or hints (VList [])) with
  | inl e => ([RequestsGet (str_of R d) 30], inl e)
  | inr hint_list =>
      ([RequestsGet (str_of R d) 30;
        MessagesCreate (analysis_request (str_of R v) (str_of R a) (str_of R d)
                          page_content (map (str_of R) hint_list))],
       inr (match analysed R E
                    (analysis_request (str_of R v) (str_of R a) (str_of R d)
                       page_content (map (str_of R) hint_list)) with
            | inl e => fallback e
            | inr loc => loc
            end))
  end.
Proof.
  intros Hacc. rewrite discover_cases, !Hacc, fetch_cases, Hacc. cbv zeta.
  set (page := match retrieved E (str_of R d) with inl _ => "" | inr page => page end).
  assert (Hf : match retrieved E (str_of R d) with
               | inl e => print_then R (PrintFetchError e) ""
               | inr page => inr page
               end = inr page).
  { unfold page. destruct (retrieved E (str_of R d)); [|reflexivity].
    apply print_then_accepting, Hacc. }
  rewrite Hf, bind_pair, analyze_cases, Hacc.
  destruct (py_iter (py_or hints (VList []))) as [e|hint_list]; [reflexivity|].
  cbv zeta. cbn [fst snd app]. do 2 f_equal.
  destruct (analysed R E _); [|reflexivity].
  apply print_then_accepting, Hacc.
Qed.

End AnalysisMore.
Import AnalysisMore.

Section AnalysisMoreTheorems.

Variable E : env.
Variables vendor api_name documentation_url : string.

(** X3: one call of [analyze] makes exactly one call of the reasoning
    service, whatever the service answers, and touches nothing else: two
    environments whose services answer this request alike and whose
    decoders agree give the same result, however their networks differ. *)
Theorem analyze_is_single_shot (E' : env) (page_content : string) (hints : list string) :
  messages_create E (analysis_request vendor api_name documentation_url page_content hints)
  = messages_create E' (analysis_request vendor api_name documentation_url
                          page_content hints) ->
  (forall t, json_loads E t = json_loads E' t) ->
  fst (_analyze_with_claude E vendor api_name documentation_url page_content hints)
  = [MessagesCreate
       (analysis_request vendor api_name documentation_url page_content hints)]
  /\ _analyze_with_claude E vendor api_name documentation_url page_content hints
     = _analyze_with_claude E' vendor api_name documentation_url page_content hints.
Proof.
  intros Hm Hj. rewrite !analyze_eq, Hm. split; [reflexivity|].
  destruct (messages_create E' _) as [e|message]; [reflexivity|].
  assert (Hr : reply_object E message = reply_object E' message).
  { unfold reply_object. destruct (py_index message 0) as [e|t0]; [reflexivity|].
    cbv beta iota delta [rbind].
    destruct (strip_code_fence t0) as [e|t1]; [reflexivity|]. apply Hj. }
  now rewrite Hr.
Qed.

(** X4: the analysis depends on the first 50,000 characters of the page
    content only: two contents that agree there give the same request and
    the same result. *)
Theorem analyze_reads_first_50000_characters
    (page_content page_content' : string) (hints : list string) :
  take 50000 page_content = take 50000 page_content' ->
  analysis_request vendor api_name documentation_url page_content hints
  = analysis_request vendor api_name documentation_url page_content' hints
  /\ _analyze_with_claude E vendor api_name documentation_url page_content hints
     = _analyze_with_claude E vendor api_name documentation_url page_content' hints.
Proof.
  intros H. split.
  - exact (analysis_request_page vendor api_name documentation_url _ _ hints H).
  - exact (analyze_page E vendor api_name documentation_url _ _ hints H).
Qed.

End AnalysisMoreTheorems.

(** X5: on a standard output that accepts every line, [discover_spec]
    retrieves the page and then calls the reasoning service, and returns
    what the analysis returns; when the retrieval raises or answers 4xx or
    5xx the service is still called, with an empty page, and otherwise it
    is shown the first 50,000 characters of the body.  Hints that are
    true in the sense of Python and cannot be iterated make it raise after
    the retrieval, before any call of the service. *)
Theorem discover_spec_by_cases
    (R : runtime) (E : env) (vendor api_name documentation_url hints : value) :
  accepting R ->
  let u := str_of R documentation_url in
  let shown :=
    match requests_get E u 30 with
    | inl _ => ""
    | inr response =>
        if ((400 <=? status_code response) && (status_code response <? 600))%N
        then "" else take 50000 (text response)
    end in
  (forall hint_list, py_iter (py_or hints (VList [])) = inr hint_list ->
     exists loc,
       agent_discovery.discover_spec R E vendor api_name documentation_url hints
       = ([RequestsGet u 30;
           MessagesCreate (analysis_request (str_of R vendor) (str_of R api_name) u
                             shown (map (str_of R) hint_list))],
          inr loc)
       /\ snd (agent_discovery._analyze_with_claude R E vendor api_name
                 documentation_url shown (py_or hints (VList [])))
          = inr loc)
  /\ (forall e, py_iter (py_or hints (VList [])) = inl e ->
        agent_discovery.discover_spec R E vendor api_name documentation_url hints
        = ([RequestsGet u 30], inl e)).
Proof.
  intros Hacc u shown. rewrite (discover_accepting R E _ _ _ _ Hacc). cbv zeta.
  fold u. split.
  - intros hint_list Hh. rewrite Hh, analyze_cases, Hacc, Hh. cbv zeta. cbn [snd].
    pose proof (take_retrieved E u) as Hp. fold shown in Hp.
    rewrite (analysis_request_page _ _ _ _ _ _ Hp).
    eexists. split; [reflexivity|].
    destruct (analysed R E _); [|reflexivity].
    apply print_then_accepting, Hacc.
  - intros e He. now rewrite He.
Qed.

Section DiscardedReplies.

Variable E : env.
Variables vendor api_name documentation_url page_content : string.
Variable hints : list string.

Local Abbreviation request :=
  (analysis_request vendor api_name documentation_url page_content hints).
Local Abbreviation analyze :=
  (_analyze_with_claude E vendor api_name documentation_url page_content hints).

(** X6: a reply that decodes to JSON that is not an object (a list, a
    string, a number, true, false, null) yields the fallback record; its
    reasoning names the type that has no [get]. *)
Theorem non_object_reply_falls_back (message : list string) (result : value) :
  messages_create E request = inr message ->
  reply_object E message = inr result ->
  (forall items, result <> VDict items) ->
  snd analyze
  = inr (fallback (Exn "AttributeError"
                     ("'" ++ type_name result ++ "' object has no attribute 'get'")))
  /\ In (type_name result) ["NoneType"; "bool"; "int"; "float"; "str"; "list"].
Proof.
  intros Hm Hr Hd. rewrite analyze_eq, Hm, Hr. simpl rbind.
  rewrite (spec_of_result_not_dict result Hd). split; [reflexivity|].
  destruct result as [| b | lx | s | l | items]; simpl; auto 7.
  - destruct (is_float_lexeme lx); auto 7.
  - now elim (Hd items).
Qed.

End DiscardedReplies.

(** X8: only the first content block of the reply is read: further
    blocks change nothing, and a reply without any block yields the
    fallback record of an [IndexError]. *)
Theorem only_first_block_is_read
    (E : env) (vendor api_name documentation_url page_content : string)
    (hints : list string) (first : string) (others : list string) :
  _analyze_with_claude (with_reply E (first :: others))
    vendor api_name documentation_url page_content hints
  = _analyze_with_claude (with_reply E [first])
      vendor api_name documentation_url page_content hints
  /\ snd (_analyze_with_claude (with_reply E [])
            vendor api_name documentation_url page_content hints)
     = inr (fallback (Exn "IndexError" "list index out of range")).
Proof. rewrite !analyze_eq. split; reflexivity. Qed.

(* ===================================================================== *)
(** ** More on the keyword check *)
(* ===================================================================== *)

Module KeywordMore.

Lemma lower_app (a b : string) : lower (a ++ b) = lower a ++ lower b.
Proof. induction a as [|c a IH]; simpl; [reflexivity | now rewrite IH]. Qed.

Lemma lower_char_idem (c : ascii) : lower_char (lower_char c) = lower_char c.
Proof. destruct c as [[] [] [] [] [] [] [] []]; reflexivity. Qed.

Lemma lower_idem (s : string) : lower (lower s) = lower s.
Proof.
  induction s as [|c s IH]; simpl; [reflexivity|].
  now rewrite lower_char_idem, IH.
Qed.

Lemma contains_context (sep p s r : string) :
  contains sep s = true -> contains sep (p ++ s ++ r) = true.
Proof.
  intros H. apply contains_iff in H as (b & a & ->). apply contains_iff.
  exists (p ++ b), (a ++ r). now rewrite !app_assoc.
Qed.

End KeywordMore.
Import KeywordMore.

(** X9: the keyword check does not depend on the case of the body, and
    text added before or after a body that passes cannot make it fail. *)
Theorem keyword_check_case_and_context (content : string) :
  has_openapi (lower content) = has_openapi content
  /\ (forall before after,
        has_openapi content = true ->
        has_openapi (before ++ content ++ after) = true).
Proof.
  split.
  - unfold has_openapi. now rewrite lower_idem.
  - intros before after H. unfold has_openapi in *.
    apply existsb_exists in H as (k & Hin & Hk). apply existsb_exists.
    exists k. split; [exact Hin|].
    rewrite !lower_app. now apply contains_context.
Qed.

(* ===================================================================== *)
(** ** More on the front door *)
(* ===================================================================== *)

Module RouteFacts.

(** The [/discover] route by cases. *)
Lemma discover_route_eq (R : runtime) (E : env) (get_json : res value) :
  agent_api.discover_spec R E get_json =
  match get_json with
  | inl e => ([], inr (agent_api.error_reply (exn_str e) 500))
  | inr data =>
      match agent_api.first_missing agent_api.required data with
      | inl e => ([], inr (agent_api.error_reply (exn_str e) 500))
      | inr (Some field) =>
          ([], inr (agent_api.error_reply ("Missing required field: " ++ field) 400))
      | inr None =>
          match read_fields data with
          | inl e => ([], inr (agent_api.error_reply (exn_str e) 500))
          | inr (v, a, d, h) =>
              (fst (agent_discovery.discover_spec R E v a d h),
               inr (match snd (agent_discovery.discover_spec R E v a d h) with
                    | inl e => agent_api.error_reply (exn_str e) 500
                    | inr result =>
                        (agent_api.jsonify (VDict [
                           ("download_url", download_url result);
                           ("version", version result);
                           ("format", format result);
                           ("versioning_strategy", versioning_strategy result);
                           ("github_info", github_info result);
                           ("confidence", confidence result);
                           ("reasoning", reasoning result)]), 200%N)
                    end))
          end
      end
  end.
Proof.
  unfold agent_api.discover_spec. rewrite try_except_ret, bind_lift.
  destruct get_json as [e|data]; [reflexivity|].
  rewrite bind_lift.
  destruct (agent_api.first_missing agent_api.required data) as [e|[f|]];
    [reflexivity | reflexivity |].
  unfold read_fields. rewrite bind_lift.
  destruct (py_getitem data "vendor") as [e|v]; [reflexivity|].
  rewrite bind_lift.
  destruct (py_getitem data "api_name") as [e|a]; [reflexivity|].
  rewrite bind_lift.
  destruct (py_getitem data "documentation_url") as [e|d]; [reflexivity|].
  rewrite bind_lift.
  destruct (py_get data "hints" (VList [])) as [e|h]; [reflexivity|].
  cbv beta iota delta [rbind].
  destruct (agent_discovery.discover_spec R E v a d h) as [t [e|result]];
    [reflexivity|].
  rewrite bind_pair. unfold ret. cbn [fst snd]. now rewrite app_nil_r.
Qed.

(** The [/verify] route by cases. *)
Lemma verify_route_eq (R : runtime) (E : env) (get_json : res value) :
  agent_api.verify_url R E get_json =
  match get_json with
  | inl e => ([], inr (agent_api.error_reply (exn_str e) 500))
  | inr data =>
      match py_get data "url" VNone with
      | inl e => ([], inr (agent_api.error_reply (exn_str e) 500))
      | inr url_value =>
          if negb (truthy url_value)
          then ([], inr (agent_api.error_reply "Missing 'url' field" 400))
          else
            (fst (agent_discovery.verify_spec_url R E url_value),
             inr (match snd (agent_discovery.verify_spec_url R E url_value) with
                  | inl e => agent_api.error_reply (exn_str e) 500
                  | inr is_valid =>
                      (agent_api.jsonify (VDict [
                         ("valid", VBool is_valid);
                         ("message", VStr (if is_valid then "Valid OpenAPI spec"
                                           else "Not a valid OpenAPI spec"))]), 200%N)
                  end))
      end
  end.
Proof.
  unfold agent_api.verify_url. rewrite try_except_ret, bind_lift.
  destruct get_json as [e|data]; [reflexivity|].
  rewrite bind_lift.
  destruct (py_get data "url" VNone) as [e|url_value]; [reflexivity|].
  destruct (negb (truthy url_value)); [reflexivity|].
  destruct (agent_discovery.verify_spec_url R E url_value) as [t [e|b]];
    [reflexivity|].
  rewrite bind_pair. unfold ret. cbn [fst snd]. now rewrite app_nil_r.
Qed.


End RouteFacts.
Import RouteFacts.

Lemma first_missing_required (data : value) :
  agent_api.first_missing agent_api.required data =
  (p1 <~ py_in "vendor" data ;;
   if negb p1 then inr (Some "vendor") else
   p2 <~ py_in "api_name" data ;;
   if negb p2 then inr (Some "api_name") else
   p3 <~ py_in "documentation_url" data ;;
   if negb p3 then inr (Some "documentation_url") else inr None)%res.
Proof. reflexivity. Qed.

Section Routes.

Variable R : runtime.
Variable E : env.

(** X10: the [/discover] route never raises, whatever the request, the
    libraries and standard output do; every reply has status 200, 400 or
    500; and what [get_json] raises becomes a 500 reply that carries the
    message, with no call made. *)
Theorem discover_route_never_raises (get_json : res value) :
  (exists body status,
     snd (agent_api.discover_spec R E get_json) = inr (body, status)
     /\ (status = 200%N \/ status = 400%N \/ status = 500%N))
  /\ (forall e, get_json = inl e ->
        agent_api.discover_spec R E get_json
        = ([], inr (VDict [("error", VStr (exn_str e))], 500%N))).
Proof.
  rewrite discover_route_eq. split; [|now intros e ->].
  destruct get_json as [e|data]; [eexists _, _; split; [reflexivity | auto]|].
  destruct (agent_api.first_missing agent_api.required data) as [e|[f|]];
    try (eexists _, _; split; [reflexivity | auto]).
  destruct (read_fields data) as [e|[[[v a] d] h]];
    [eexists _, _; split; [reflexivity | auto]|].
  cbn [snd].
  destruct (snd (agent_discovery.discover_spec R E v a d h));
    eexists _, _; split; try reflexivity; auto.
Qed.

(** X11: a body of the [/discover] route that is not a JSON object never
    reaches the agent: the reply is 400 or 500 and no call is made; for
    null, a number, true or false it is the 500 of the [TypeError] of the
    membership test. *)
Theorem discover_route_rejects_non_objects (data : value) :
  (forall items, data <> VDict items) ->
  (exists body status,
     agent_api.discover_spec R E (inr data) = ([], inr (body, status))
     /\ (status = 400%N \/ status = 500%N))
  /\ ((forall s, data <> VStr s) -> (forall l, data <> VList l) ->
      agent_api.discover_spec R E (inr data)
      = ([], inr (VDict [("error",
                          VStr ("argument of type '" ++ type_name data
                                ++ "' is not iterable"))], 500%N))).
Proof.
  intros Hd. rewrite discover_route_eq. split.
  - destruct (agent_api.first_missing agent_api.required data) as [e|[f|]];
      try (eexists _, _; split; [reflexivity | auto]).
    unfold read_fields.
    destruct data as [| b | lx | s | l | items]; try (eexists _, _; split; [reflexivity | auto]).
    now elim (Hd items).
  - intros Hs Hl.
    destruct data as [| b | lx | s | l | items]; try reflexivity.
    + now elim (Hs s).
    + now elim (Hl l).
    + now elim (Hd items).
Qed.

(** X12: a JSON-object body of the [/discover] route with vendor, api_name
    and documentation_url goes to the agent as it is, with the hints of
    the body or an empty list.  When the agent returns a record the reply
    has status 200 after the calls of the agent; its body carries the
    seven fields of the record under their sorted names, and reading them
    back gives the record, the keys of its dicts sorted.  When the agent
    raises, the reply is the 500 that carries the message. *)
Theorem discover_route_mirrors_record
    (items : list (string * value)) (v a d : value) :
  lookup "vendor" items = Some v ->
  lookup "api_name" items = Some a ->
  lookup "documentation_url" items = Some d ->
  let run :=
    agent_discovery.discover_spec R E v a d
      (match lookup "hints" items with Some h => h | None => VList [] end) in
  (forall loc, snd run = inr loc ->
     exists body,
       agent_api.discover_spec R E (inr (VDict items))
       = (fst run, inr (VDict body, 200%N))
       /\ map fst body = ["confidence"; "download_url"; "format"; "github_info";
                          "reasoning"; "version"; "versioning_strategy"]
       /\ record_of body = Some (sorted_record loc))
  /\ (forall e, snd run = inl e ->
        agent_api.discover_spec R E (inr (VDict items))
        = (fst run, inr (VDict [("error", VStr (exn_str e))], 500%N))).
Proof.
  intros Hv Ha Hd run. rewrite discover_route_eq.
  assert (Hm : agent_api.first_missing agent_api.required (VDict items) = inr None).
  { rewrite first_missing_required. simpl. now rewrite Hv, Ha, Hd. }
  rewrite Hm. cbv beta iota delta [read_fields py_getitem py_get rbind].
  rewrite Hv, Ha, Hd. cbv beta iota. fold run. split.
  - intros loc ->. eexists. split; [reflexivity|]. split; reflexivity.
  - intros e ->. reflexivity.
Qed.

(** X13: the [/verify] route never raises, whatever the request, the
    libraries and standard output do; every reply has status 200, 400 or
    500; what [get_json] raises becomes a 500 reply; and a body that is
    not a JSON object gets the 500 of the [AttributeError] of [get], with
    no call made. *)
Theorem verify_route_never_raises (get_json : res value) :
  (exists body status,
     snd (agent_api.verify_url R E get_json) = inr (body, status)
     /\ (status = 200%N \/ status = 400%N \/ status = 500%N))
  /\ (forall e, get_json = inl e ->
        agent_api.verify_url R E get_json
        = ([], inr (VDict [("error", VStr (exn_str e))], 500%N)))
  /\ (forall data, get_json = inr data -> (forall items, data <> VDict items) ->
        agent_api.verify_url R E get_json
        = ([], inr (VDict [("error",
                            VStr ("'" ++ type_name data
                                  ++ "' object has no attribute 'get'"))], 500%N))).
Proof.
  rewrite verify_route_eq. split; [|split].
  - destruct get_json as [e|data]; [eexists _, _; split; [reflexivity | auto]|].
    destruct (py_get data "url" VNone) as [e|u];
      [eexists _, _; split; [reflexivity | auto]|].
    destruct (negb (truthy u)); [eexists _, _; split; [reflexivity | auto]|].
    cbn [snd].
    destruct (snd (agent_discovery.verify_spec_url R E u));
      eexists _, _; split; try reflexivity; auto.
  - now intros e ->.
  - intros data -> Hd. destruct data; try reflexivity. now elim (Hd items).
Qed.

(** X14: a JSON-object body of the [/verify] route whose url is absent or
    false in the sense of Python (null, false, zero, the empty string, an
    empty list or object) gets status 400 and no call is made. *)
Theorem verify_route_requires_url (items : list (string * value)) :
  truthy (match lookup "url" items with Some x => x | None => VNone end) = false ->
  agent_api.verify_url R E (inr (VDict items))
  = ([], inr (VDict [("error", VStr "Missing 'url' field")], 400%N)).
Proof.
  intros H. rewrite verify_route_eq. simpl. now rewrite H.
Qed.


End Routes.

(* ===================================================================== *)
(** ** The registry entry *)
(* ===================================================================== *)


Module RegistryFacts.

(** [registry_sources] by cases on [github_info]. *)
Lemma registry_sources_falsy (r : SpecLocation) (doc : string) :
  truthy (github_info r) = false ->
  registry_sources r doc = inr [("documentation_url", VStr doc)].
Proof. intros H. unfold registry_sources. now rewrite H. Qed.

Lemma registry_sources_dict (r : SpecLocation) (doc : string)
    (items : list (string * value)) :
  github_info r = VDict items -> items <> [] ->
  registry_sources r doc =
  match lookup "owner" items with
  | None => inl (Exn "KeyError" "'owner'")
  | Some o =>
      match lookup "repo" items with
      | None => inl (Exn "KeyError" "'repo'")
      | Some rp =>
          match lookup "path" items with
          | None => inl (Exn "KeyError" "'path'")
          | Some p =>
              inr [("documentation_url", VStr doc);
                   ("github", VDict [("owner", o); ("repo", rp); ("spec_path", p);
                                     ("versioning_strategy", versioning_strategy r)])]
          end
      end
  end.
Proof.
  intros Hg Hne. unfold registry_sources. rewrite Hg.
  destruct items as [|i items]; [now elim Hne|]. cbv beta iota delta [truthy].
  cbv beta iota delta [py_getitem rbind].
  destruct (lookup "owner" (i :: items)); [|reflexivity].
  destruct (lookup "repo" (i :: items)); [|reflexivity].
  destruct (lookup "path" (i :: items)); reflexivity.
Qed.

Lemma registry_sources_not_dict (r : SpecLocation) (doc : string) :
  truthy (github_info r) = true -> (forall items, github_info r <> VDict items) ->
  exists e, registry_sources r doc = inl e /\ exn_class e = "TypeError".
Proof.
  intros Ht Hd. unfold registry_sources. rewrite Ht.
  destruct (github_info r) as [| b | lx | s | l | items];
    try (eexists; split; reflexivity).
  now elim (Hd items).
Qed.

(** The entry is built exactly when its sources are. *)
Lemma create_registry_entry_sources (title : string -> string) (v a : string)
    (r : SpecLocation) (doc : string) :
  match registry_sources r doc with
  | inl e => create_registry_entry title v a r doc = inl e
  | inr sources =>
      exists entry,
        create_registry_entry title v a r doc = inr (VDict entry)
        /\ lookup "sources" entry = Some (VDict sources)
        /\ lookup "discovery_mode" entry
           = Some (VStr (if truthy (github_info r) then "hybrid" else "agent_assisted"))
        /\ lookup_path ["version_tracking"; "last_known_version"] (VDict entry)
           = Some (py_or (version r) (VStr "unknown"))
        /\ lookup_path ["agent_context"; "previous_findings"] (VDict entry)
           = Some (VDict [("download_url", download_url r); ("version", version r);
                          ("format", format r);
                          ("versioning_strategy", versioning_strategy r);
                          ("github_info", github_info r);
                          ("confidence", confidence r); ("reasoning", reasoning r)])
  end.
Proof.
  unfold create_registry_entry. destruct (registry_sources r doc) as [e|sources];
    [reflexivity|].
  cbv beta iota delta [rbind]. eexists. split; [reflexivity|]. repeat split.
Qed.

End RegistryFacts.
Import RegistryFacts.

Section Registry.

Variable title : string -> string.
Variables vendor api_name doc_url : string.
Variable r : SpecLocation.

Local Abbreviation entry_of := (create_registry_entry title vendor api_name r doc_url).

(** X16: the discovery mode of a registry entry follows github_info: when
    it is false in the sense of Python (None, an empty dict, ...) the mode
    is agent_assisted and the sources hold the documentation URL only;
    when it is a dict with owner, repo and path the mode is hybrid and the
    sources hold a github object with owner, repo, the path as spec_path,
    and the versioning strategy of the result. *)
Theorem registry_entry_discovery_mode :
  (truthy (github_info r) = false ->
   exists entry,
     entry_of = inr (VDict entry)
     /\ lookup "discovery_mode" entry = Some (VStr "agent_assisted")
     /\ lookup "sources" entry = Some (VDict [("documentation_url", VStr doc_url)]))
  /\ (forall items owner repo path,
        github_info r = VDict items ->
        lookup "owner" items = Some owner ->
        lookup "repo" items = Some repo ->
        lookup "path" items = Some path ->
        exists entry,
          entry_of = inr (VDict entry)
          /\ lookup "discovery_mode" entry = Some (VStr "hybrid")
          /\ lookup "sources" entry
             = Some (VDict [("documentation_url", VStr doc_url);
                            ("github",
                             VDict [("owner", owner); ("repo", repo);
                                    ("spec_path", path);
                                    ("versioning_strategy", versioning_strategy r)])])).
Proof.
  pose proof (create_registry_entry_sources title vendor api_name r doc_url) as H.
  split.
  - intros Ht. rewrite (registry_sources_falsy r doc_url Ht) in H.
    destruct H as (entry & He & Hs & Hm & _). rewrite Ht in Hm. now exists entry.
  - intros items owner repo path Hg Ho Hr Hp.
    assert (Hne : items <> []) by (intros ->; discriminate).
    rewrite (registry_sources_dict r doc_url items Hg Hne), Ho, Hr, Hp in H.
    destruct H as (entry & He & Hs & Hm & _).
    assert (Ht : truthy (github_info r) = true)
      by (rewrite Hg; destruct items; [now elim Hne | reflexivity]).
    rewrite Ht in Hm. now exists entry.
Qed.

(** X17: [create_registry_entry] raises when github_info is true in the
    sense of Python without being a dict with owner, repo and path: a
    non-empty dict raises [KeyError] for one of the three keys it lacks,
    and a non-empty string or list, a non-zero number or true raises
    [TypeError]. *)
Theorem registry_entry_raises_on_partial_github_info :
  truthy (github_info r) = true ->
  has_github_keys (github_info r) = false ->
  exists e,
    entry_of = inl e
    /\ (forall items, github_info r = VDict items ->
          exists key, In key ["owner"; "repo"; "path"]
                      /\ lookup key items = None
                      /\ e = Exn "KeyError" ("'" ++ key ++ "'"))
    /\ ((forall items, github_info r <> VDict items) -> exn_class e = "TypeError").
Proof.
  intros Ht Hk.
  pose proof (create_registry_entry_sources title vendor api_name r doc_url) as H.
  destruct (github_info r) as [| b | lx | s | l | items] eqn:Hg.
  6:{ assert (Hne : items <> []) by (intros ->; discriminate).
      rewrite (registry_sources_dict r doc_url items Hg Hne) in H.
      unfold has_github_keys in Hk.
      destruct (lookup "owner" items) as [o|] eqn:Ho.
      2:{ eexists. split; [exact H|]. split; [|intros Hd; now elim (Hd items)].
          intros items' [= <-]. exists "owner". simpl. auto. }
      destruct (lookup "repo" items) as [rp|] eqn:Hr.
      2:{ eexists. split; [exact H|]. split; [|intros Hd; now elim (Hd items)].
          intros items' [= <-]. exists "repo". simpl. auto. }
      destruct (lookup "path" items) as [p|] eqn:Hp; [discriminate|].
      eexists. split; [exact H|]. split; [|intros Hd; now elim (Hd items)].
      intros items' [= <-]. exists "path". simpl. auto. }
  all: destruct (registry_sources_not_dict r doc_url) as (e & He & Hc);
    [now rewrite Hg | rewrite Hg; discriminate |];
    rewrite He in H; exists e; split; [exact H|];
    split; [discriminate | intros _; exact Hc].
Qed.

(** X18: a registry entry keeps the whole discovery result: reading the
    seven previous findings back gives the record that was put in; and
    the last known version is the version of the result when that is true
    in the sense of Python, and unknown when it is None or empty. *)
Theorem registry_entry_keeps_findings (entry : value) :
  entry_of = inr entry ->
  (exists findings,
     lookup_path ["agent_context"; "previous_findings"] entry = Some (VDict findings)
     /\ record_of findings = Some r)
  /\ lookup_path ["version_tracking"; "last_known_version"] entry
     = Some (if truthy (version r) then version r else VStr "unknown").
Proof.
  intros He.
  pose proof (create_registry_entry_sources title vendor api_name r doc_url) as H.
  destruct (registry_sources r doc_url) as [e|sources]; [congruence|].
  destruct H as (items & He' & _ & _ & Hv & Hf).
  rewrite He' in He. injection He as <-. split; [|exact Hv].
  eexists. split; [exact Hf|]. destruct r; reflexivity.
Qed.

End Registry.

(* ===================================================================== *)
(** ** The command-line entry point of the agent *)
(* ===================================================================== *)

Section Main.

Variable R : runtime.
Variable E : env.

Local Abbreviation discovery :=
  (agent_discovery.discover_spec R E (VStr "salesforce") (VStr "marketing-cloud")
     (VStr main_documentation_url) (VList (map VStr main_hints))).

(** X19: [main] raises when the construction of the agent does, or when
    its first line cannot be printed, and then makes no call.  On a
    standard output that accepts every line it does not raise: it
    discovers with two calls, and probes the discovered URL exactly when
    the download_url is true in the sense of Python and the confidence is
    high or medium; after a result of low confidence or an empty
    download_url it stops after the two calls of the discovery. *)
Theorem main_verifies_confident_results_only (agent_init : res unit) :
  (forall e, agent_init = inl e -> main R agent_init E = ([], inl e))
  /\ (forall e, agent_init = inr tt -> stdout_print R PrintRuleAbove = inl e ->
        main R agent_init E = ([], inl e))
  /\ (accepting R -> agent_init = inr tt ->
      let page :=
        match retrieved E main_documentation_url with
        | inl _ => ""
        | inr page => page
        end in
      let calls :=
        [RequestsGet main_documentation_url 30;
         MessagesCreate (analysis_request "salesforce" "marketing-cloud"
                           main_documentation_url page main_hints)] in
      exists result,
        discovery = (calls, inr result)
        /\ (truthy (download_url result) && confident (confidence result) = false ->
            main R agent_init E = (calls, inr tt))
        /\ (truthy (download_url result) && confident (confidence result) = true ->
            exists probes,
              main R agent_init E
              = ((calls ++ RequestsHead (str_of R (download_url result)) 10 true
                             :: probes)%list,
                 inr tt))).
Proof.
  split; [now intros e ->|]. split.
  - intros e -> Hp. unfold main. now rewrite bind_lift, bind_print, Hp.
  - intros Hacc ->. unfold main. rewrite bind_lift, !bind_print, !Hacc.
    rewrite (discover_accepting R E _ _ _ _ Hacc). cbv zeta.
    cbn [py_or truthy main_hints map py_iter str_of].
    set (result := match analysed R E _ with inl e => fallback e | inr loc => loc end).
    exists result. split; [reflexivity|].
    rewrite bind_pair, !bind_print, !Hacc. split.
    + intros ->. unfold ret. cbn [fst snd]. now rewrite app_nil_r.
    + intros ->.
      destruct (verify_returns_when_printing R E (download_url result)
                  (fun e => Hacc _)) as (t & b & Hv & Ht).
      destruct (Ht (Hacc _)) as (t' & ->).
      rewrite Hv, bind_pair. unfold ret. cbn [fst snd]. rewrite app_nil_r.
      now exists t'.
Qed.

End Main.

(* ===================================================================== *)
(** ** The declared types and the general methods *)
(* ===================================================================== *)

(** The extraction depends on standard output through its three lines
    only. *)
Lemma spec_of_result_accepting (R : runtime) (result : value) :
  accepting R -> agent_discovery.spec_of_result R result = spec_of_result result.
Proof.
  intros Hacc. unfold spec_of_result, agent_discovery.spec_of_result.
  rewrite Hacc. cbn [stdout_print quiet]. cbv beta iota delta [rbind].
  destruct (py_get result "confidence" (VStr "unknown")) as [e|c]; [reflexivity|].
  rewrite Hacc.
  destruct (py_get result "reasoning" (VStr "N/A")) as [e|r]; [reflexivity|].
  destruct (py_slice_to 100 r) as [e|preview]; [reflexivity|].
  now rewrite Hacc.
Qed.

(** X20: on a standard output that accepts every line, the three methods
    of the agent, given arguments of their declared types (strings, and a
    list of strings for the hints), make the calls and return the results
    stated for them at those types: what is proved of [Typed] holds in
    every such process. *)
Theorem accepting_runs_are_typed_runs (R : runtime) (E : env) :
  accepting R ->
  (forall u, agent_discovery._fetch_documentation R E (VStr u)
             = _fetch_documentation E u)
  /\ (forall vendor api_name documentation_url page_content hints,
        agent_discovery._analyze_with_claude R E (VStr vendor) (VStr api_name)
          (VStr documentation_url) page_content (VList (map VStr hints))
        = _analyze_with_claude E vendor api_name documentation_url page_content hints)
  /\ (forall u, agent_discovery.verify_spec_url R E (VStr u) = verify_spec_url E u).
Proof.
  intros Hacc. split; [|split].
  - intros u. rewrite fetch_cases, Hacc, fetch_eq. cbn [str_of]. unfold retrieved.
    f_equal.
    destruct (requests_get E u 30) as [e|response];
      [apply print_then_accepting, Hacc|].
    cbv beta iota delta [rbind].
    destruct (raise_for_status response); [apply print_then_accepting, Hacc|].
    reflexivity.
  - intros v a d p h. rewrite analyze_cases, Hacc, analyze_eq.
    cbn [py_iter str_of]. cbv zeta. rewrite map_str_of_VStr. unfold analysed.
    f_equal.
    destruct (messages_create E _) as [e|message];
      [apply print_then_accepting, Hacc|].
    cbv beta iota delta [rbind].
    destruct (reply_object E message) as [e|result];
      [apply print_then_accepting, Hacc|].
    rewrite (spec_of_result_accepting R result Hacc).
    destruct (spec_of_result result); [apply print_then_accepting, Hacc|].
    reflexivity.
  - intros u. rewrite verify_cases, Hacc, verify_eq. cbn [str_of].
    unfold not_a_spec.
    destruct (requests_head E u 10 true) as [e|response];
      [now rewrite (print_then_accepting _ _ _ (Hacc _))|].
    rewrite !Hacc.
    destruct (status_code response =? 200)%N; [|reflexivity].
    destruct (requests_get E u 30) as [e|cr];
      [now rewrite (print_then_accepting _ _ _ (Hacc _))|].
    destruct (has_openapi (text cr)); reflexivity.
Qed.

(** X21: the fetcher and the verifier raise only when the line of their
    [except] branch cannot be printed; and when the verifier cannot print
    its first line but can print that error line, it answers false
    without a probe. *)
Theorem fetch_and_verify_raise_only_from_except_print
    (R : runtime) (E : env) (url : value) :
  (forall e, snd (agent_discovery._fetch_documentation R E url) = inl e ->
     exists caught, stdout_print R (PrintFetchError caught) = inl e)
  /\ (forall e, snd (agent_discovery.verify_spec_url R E url) = inl e ->
        exists caught, stdout_print R (PrintVerifyError caught) = inl e)
  /\ (forall e, stdout_print R (PrintVerifying url) = inl e ->
        stdout_print R (PrintVerifyError e) = inr tt ->
        agent_discovery.verify_spec_url R E url = ([], inr false)).
Proof.
  assert (P : forall A (line : printed) (a : A) e,
            print_then R line a = inl e -> stdout_print R line = inl e).
  { intros A line a e. unfold print_then.
    destruct (stdout_print R line); [now intros [= <-] | discriminate]. }
  split; [|split].
  - intros e. rewrite fetch_cases.
    destruct (stdout_print R PrintFetching) as [e0|[]]; cbn [snd].
    + intros H. exists e0. exact (P _ _ _ _ H).
    + destruct (retrieved E (str_of R url)) as [e0|page]; [|discriminate].
      intros H. exists e0. exact (P _ _ _ _ H).
  - intros e. rewrite verify_cases. unfold not_a_spec.
    destruct (stdout_print R (PrintVerifying url)) as [e0|[]]; cbn [snd].
    { intros H. exists e0. exact (P _ _ _ _ H). }
    destruct (requests_head E (str_of R url) 10 true) as [e0|response]; cbn [snd].
    { intros H. exists e0. exact (P _ _ _ _ H). }
    destruct (status_code response =? 200)%N; cbn [snd].
    + destruct (requests_get E (str_of R url) 30) as [e0|cr].
      { intros H. exists e0. exact (P _ _ _ _ H). }
      destruct (has_openapi (text cr)).
      * destruct (stdout_print R PrintValidSpec) as [e0|[]]; [|discriminate].
        intros H. exists e0. exact (P _ _ _ _ H).
      * destruct (stdout_print R (PrintNotASpec _)) as [e0|[]]; [|discriminate].
        intros H. exists e0. exact (P _ _ _ _ H).
    + destruct (stdout_print R (PrintNotASpec _)) as [e0|[]]; [|discriminate].
      intros H. exists e0. exact (P _ _ _ _ H).
  - intros e Hp He. rewrite verify_cases, Hp.
    now rewrite (print_then_accepting _ _ _ He).
Qed.

(** A reply with a sentence before the fence and one after it. *)
Lemma fence_removal_ignores_surrounding_text_witness :
  strip_code_fence ("Here is the result:" ++ nl ++ "```json" ++ (nl ++ full_reply (q "ok") ++ nl)
                    ++ "```" ++ (nl ++ "Use ```curl``` to fetch it."))
  = inr (nl ++ full_reply (q "ok") ++ nl).
Proof.
  apply (fence_removal_ignores_surrounding_text
           ("Here is the result:" ++ nl) (nl ++ full_reply (q "ok") ++ nl)
           (nl ++ "Use ```curl``` to fetch it.")); vm_compute; reflexivity.
Defined.

(** The same service behind a network that works and one that does not. *)
Lemma analyze_is_single_shot_witness :
  _analyze_with_claude (answering xml_reply) "acme" "widgets" docs_url "" []
  = _analyze_with_claude (stub (inl unreachable) (inl unreachable) (inr [xml_reply]))
      "acme" "widgets" docs_url "" [].
Proof.
  apply (analyze_is_single_shot (answering xml_reply) "acme" "widgets" docs_url
           (stub (inl unreachable) (inl unreachable) (inr [xml_reply])) "" []);
    reflexivity.
Defined.

Lemma take_long_page (n : N) (tail : string) :
  take n (long_page n tail) = long_page n "".
Proof.
  unfold long_page. induction n as [|n IH] using N.peano_ind.
  - now destruct tail.
  - rewrite !N.iter_succ. simpl take.
    destruct (N.eqb_spec (N.succ n) 0) as [H|_]; [lia|].
    now rewrite N.pred_succ, IH.
Qed.

Lemma long_page_inj (n : N) (t t' : string) :
  long_page n t = long_page n t' -> t = t'.
Proof.
  unfold long_page. induction n as [|n IH] using N.peano_ind; [exact (fun H => H)|].
  rewrite !N.iter_succ. intros [= H]. exact (IH H).
Qed.

(** Two pages of 50,001 characters that differ in the last one. *)
Lemma analyze_reads_first_50000_characters_witness :
  long_page 50000 "x" <> long_page 50000 "y"
  /\ _analyze_with_claude (answering xml_reply) "acme" "widgets" docs_url
       (long_page 50000 "x") []
     = _analyze_with_claude (answering xml_reply) "acme" "widgets" docs_url
         (long_page 50000 "y") [].
Proof.
  split.
  - intros H. apply long_page_inj in H. discriminate.
  - apply (analyze_reads_first_50000_characters (answering xml_reply)
             "acme" "widgets" docs_url (long_page 50000 "x") (long_page 50000 "y") []).
    now rewrite !take_long_page.
Defined.

(** The reply [[]]. *)
Lemma non_object_reply_falls_back_witness :
  snd (analyze_sample (answering "[]"))
  = inr (fallback (Exn "AttributeError" "'list' object has no attribute 'get'")).
Proof.
  apply (non_object_reply_falls_back (answering "[]")
           "acme" "widgets" docs_url "<html>docs</html>" [] ["[]"] (VList []));
    [reflexivity | reflexivity | discriminate].
Defined.

(** The page is served and the hints are a list; and hints that are the
    number 5. *)
Lemma discover_spec_by_cases_witness :
  (exists loc,
     agent_discovery.discover_spec quiet serving (VStr "acme") (VStr "widgets")
       (VStr docs_url) (VList [VStr "look for a download"])
     = ([RequestsGet docs_url 30;
         MessagesCreate (analysis_request "acme" "widgets" docs_url "<html>docs</html>"
                           ["look for a download"])],
        inr loc))
  /\ agent_discovery.discover_spec quiet serving (VStr "acme") (VStr "widgets")
       (VStr docs_url) (VNum "5")
     = ([RequestsGet docs_url 30], inl (Exn "TypeError" "'int' object is not iterable")).
Proof.
  split.
  - destruct (proj1 (discover_spec_by_cases quiet serving (VStr "acme") (VStr "widgets")
                       (VStr docs_url) (VList [VStr "look for a download"])
                       (fun _ => eq_refl))
                [VStr "look for a download"] eq_refl) as (loc & Hr & _).
    exists loc. exact Hr.
  - exact (proj2 (discover_spec_by_cases quiet serving (VStr "acme") (VStr "widgets")
                    (VStr docs_url) (VNum "5") (fun _ => eq_refl))
             _ eq_refl).
Defined.


(** A specification inside a page. *)
Lemma keyword_check_case_and_context_witness :
  has_openapi "OpenAPI: 3.0.0" = true
  /\ has_openapi ("<pre>" ++ "OpenAPI: 3.0.0" ++ "</pre>") = true.
Proof.
  assert (H : has_openapi "OpenAPI: 3.0.0" = true) by (vm_compute; reflexivity).
  split; [exact H|].
  exact (proj2 (keyword_check_case_and_context "OpenAPI: 3.0.0") "<pre>" "</pre>" H).
Defined.

(** A request whose body is not JSON. *)
Lemma discover_route_never_raises_witness :
  agent_api.discover_spec quiet serving
    (inl (Exn "BadRequest" "400 Bad Request: Failed to decode JSON object"))
  = ([], inr (VDict [("error",
                      VStr "400 Bad Request: Failed to decode JSON object")], 500%N)).
Proof.
  exact (proj2 (discover_route_never_raises quiet serving
                  (inl (Exn "BadRequest" "400 Bad Request: Failed to decode JSON object")))
           _ eq_refl).
Defined.

(** The body [null]. *)
Lemma discover_route_rejects_non_objects_witness :
  agent_api.discover_spec quiet serving (inr VNone)
  = ([], inr (VDict [("error", VStr "argument of type 'NoneType' is not iterable")],
              500%N)).
Proof.
  apply (proj2 (discover_route_rejects_non_objects quiet serving VNone
                  ltac:(discriminate))); discriminate.
Defined.

(** A complete request, served end to end. *)
Lemma discover_route_mirrors_record_witness :
  exists body,
    agent_api.discover_spec quiet serving (inr (VDict discover_body))
    = ([RequestsGet docs_url 30;
        MessagesCreate (analysis_request "acme" "widgets" docs_url "<html>docs</html>"
                          ["look for a download"])],
       inr (VDict body, 200%N))
    /\ record_of body = Some (sorted_record full_record)
    /\ lookup_path ["github_info"; "path"] (VDict body) = Some (VStr "openapi.yaml").
Proof.
  destruct (proj1 (discover_route_mirrors_record quiet serving discover_body
                     (VStr "acme") (VStr "widgets") (VStr docs_url)
                     eq_refl eq_refl eq_refl)
              full_record ltac:(vm_compute; reflexivity))
    as (body & Hrun & Hk & Hrec).
  exists body. split; [rewrite Hrun; reflexivity|]. split; [exact Hrec|].
  unfold record_of in Hrec. cbn [lookup_path].
  destruct (lookup "download_url" body); [|discriminate].
  destruct (lookup "version" body); [|discriminate].
  destruct (lookup "format" body); [|discriminate].
  destruct (lookup "versioning_strategy" body); [|discriminate].
  destruct (lookup "github_info" body) as [g|]; [|discriminate].
  destruct (lookup "confidence" body); [|discriminate].
  destruct (lookup "reasoning" body); [|discriminate].
  injection Hrec as _ _ _ _ -> _ _. reflexivity.
Defined.

(** The body [[]] of the [/verify] route. *)
Lemma verify_route_never_raises_witness :
  agent_api.verify_url quiet serving (inr (VList []))
  = ([], inr (VDict [("error", VStr "'list' object has no attribute 'get'")], 500%N)).
Proof.
  apply (proj2 (proj2 (verify_route_never_raises quiet serving (inr (VList []))))
           (VList []) eq_refl).
  discriminate.
Defined.

(** The body [{"url": ""}]. *)
Lemma verify_route_requires_url_witness :
  agent_api.verify_url quiet serving (inr (VDict [("url", VStr "")]))
  = ([], inr (VDict [("error", VStr "Missing 'url' field")], 400%N)).
Proof.
  apply (verify_route_requires_url quiet serving [("url", VStr "")]). reflexivity.
Defined.


(** The fallback record, and the record of the full reply. *)
Lemma registry_entry_discovery_mode_witness :
  (exists entry,
     create_registry_entry title "acme" "widgets"
       (fallback unreachable) docs_url = inr (VDict entry)
     /\ lookup "discovery_mode" entry = Some (VStr "agent_assisted"))
  /\ (exists entry,
        create_registry_entry title "acme" "widgets" full_record docs_url
        = inr (VDict entry)
        /\ lookup "discovery_mode" entry = Some (VStr "hybrid")
        /\ lookup_path ["sources"; "github"; "spec_path"] (VDict entry)
           = Some (VStr "openapi.yaml")).
Proof.
  destruct (registry_entry_discovery_mode title "acme" "widgets" docs_url
              (fallback unreachable)) as [H1 _].
  destruct (registry_entry_discovery_mode title "acme" "widgets" docs_url
              full_record) as [_ H2].
  split.
  - destruct (H1 eq_refl) as (entry & He & Hm & _). now exists entry.
  - destruct (H2 _ (VStr "acme") (VStr "widgets-oai") (VStr "openapi.yaml")
                eq_refl eq_refl eq_refl eq_refl) as (entry & He & Hm & Hs).
    exists entry. split; [exact He|]. split; [exact Hm|].
    simpl. rewrite Hs. reflexivity.
Defined.

(** A github_info with an owner only. *)
Lemma registry_entry_raises_on_partial_github_info_witness :
  create_registry_entry title "acme" "widgets" partial_github_record docs_url
  = inl (Exn "KeyError" "'repo'").
Proof.
  destruct (registry_entry_raises_on_partial_github_info title "acme" "widgets"
              docs_url partial_github_record eq_refl eq_refl) as (e & He & _).
  rewrite He. symmetry. rewrite <- He. reflexivity.
Defined.

(** The entry of the record of the full reply, and of a record with an
    empty version. *)
Lemma registry_entry_keeps_findings_witness :
  (exists entry findings,
     create_registry_entry title "acme" "widgets" full_record docs_url = inr entry
     /\ lookup_path ["agent_context"; "previous_findings"] entry = Some (VDict findings)
     /\ record_of findings = Some full_record
     /\ lookup_path ["version_tracking"; "last_known_version"] entry
        = Some (VStr "unknown")).
Proof.
  destruct (create_registry_entry title "acme" "widgets" full_record docs_url)
    as [e|entry] eqn:He; [vm_compute in He; discriminate|].
  destruct (registry_entry_keeps_findings title "acme" "widgets" docs_url
              full_record entry He) as ((findings & Hf & Hr) & Hv).
  exists entry, findings. repeat split; assumption.
Defined.

(** The whole flow: discovery with high confidence, then the probe of
    the verification. *)
Lemma main_verifies_confident_results_only_witness :
  exists probes,
    main quiet (inr tt) serving
    = (([RequestsGet main_documentation_url 30;
         MessagesCreate (analysis_request "salesforce" "marketing-cloud"
                           main_documentation_url "<html>docs</html>" main_hints)]
        ++ RequestsHead spec_url 10 true :: probes)%list,
       inr tt).
Proof.
  destruct (proj2 (proj2 (main_verifies_confident_results_only quiet serving (inr tt)))
              (fun _ => eq_refl) eq_refl)
    as (result & Hd & _ & Hprobe).
  assert (Hr : result = full_record).
  { assert (H : snd (agent_discovery.discover_spec quiet serving (VStr "salesforce")
                       (VStr "marketing-cloud") (VStr main_documentation_url)
                       (VList (map VStr main_hints))) = inr full_record)
      by (vm_compute; reflexivity).
    rewrite Hd in H. now injection H. }
  subst result.
  exact (Hprobe eq_refl).
Defined.

(** A process that accepts every line and whose [str()] is another. *)
Lemma accepting_runs_are_typed_runs_witness :
  agent_discovery.verify_spec_url (mkRuntime (fun _ => inr tt) (fun _ => "?"))
    (stub (ok_response 200 "openapi: 3.0.0") (ok_response 200 "") (inl unreachable))
    (VStr spec_url)
  = ([RequestsHead spec_url 10 true; RequestsGet spec_url 30], inr true).
Proof.
  rewrite (proj2 (proj2 (accepting_runs_are_typed_runs
                           (mkRuntime (fun _ => inr tt) (fun _ => "?"))
                           (stub (ok_response 200 "openapi: 3.0.0") (ok_response 200 "")
                              (inl unreachable))
                           (fun _ => eq_refl)))).
  reflexivity.
Defined.

(** A standard output that refuses the first line of the verifier. *)
Lemma fetch_and_verify_raise_only_from_except_print_witness :
  agent_discovery.verify_spec_url
    (refusing (fun line => match line with PrintVerifying _ => true | _ => false end)
       (Exn "UnicodeEncodeError" "surrogates not allowed"))
    serving (VStr spec_url)
  = ([], inr false).
Proof.
  exact (proj2 (proj2 (fetch_and_verify_raise_only_from_except_print
                         (refusing (fun line => match line with
                                                | PrintVerifying _ => true
                                                | _ => false
                                                end)
                            (Exn "UnicodeEncodeError" "surrogates not allowed"))
                         serving (VStr spec_url)))
           _ eq_refl eq_refl).
Defined.
